(** * gym-form: the squat dashboard's rep counter and angle calculator

    A shallow embedding of [src/python/squat_dashboard.py].

    - [Dashboard] embeds the rep-counting state of [SquatDashboard]
      ([__init__], [generate_rep_feedback], [update_rep_count] and the
      timer part of [draw_metrics]).  These methods only compare angles
      with one another and with literals, never compute with them, so an
      angle is a rational number: every finite float and every Python
      int is one, and the comparisons of the source are the order of [Q].
    - [Geometry] embeds [calculate_angle] over the real numbers, with
      [np.arctan2] given by its mathematical definition. *)

From Stdlib Require Import ZArith QArith Reals List String Bool Lia Psatz.
Import ListNotations.

Module Dashboard.

Local Open Scope Q_scope.

(** ** Comparisons of angles as the source's boolean tests *)

Definition Qltb (x y : Q) : bool := (Qnum x * QDen y <? Qnum y * QDen x)%Z.
Definition Qleb (x y : Q) : bool := Qle_bool x y.

Infix "<?" := Qltb (at level 70, no associativity) : Q_scope.
Infix "<=?" := Qleb (at level 70, no associativity) : Q_scope.

(** ** The instance state

    [self.squat_threshold] and [self.feedback_duration] are written once,
    in [__init__], and only read afterwards: they are constants here.  The
    MediaPipe handles ([mp_pose], [pose], [mp_drawing]) hold no counting
    state and are left out. *)

Definition squat_threshold : Q := 140.
Definition feedback_duration : Z := 180.

(** One entry of [current_rep_metrics], the dict
    [{'knee_angle': ..., 'torso_angle': ...}]. *)
Record metrics := { knee_angle : Q; torso_angle : Q }.

Record SquatDashboard := {
  rep_count : Z;
  in_squat : bool;
  current_rep_metrics : list metrics;
  deepest_knee_angle : Q;
  deepest_torso_angle : Q;
  last_rep_feedback : string;
  feedback_timer : Z
}.

(** Assignments to one attribute of [self]. *)
Definition set_rep_count (v : Z) (self : SquatDashboard) :=
  {| rep_count := v; in_squat := in_squat self;
     current_rep_metrics := current_rep_metrics self;
     deepest_knee_angle := deepest_knee_angle self;
     deepest_torso_angle := deepest_torso_angle self;
     last_rep_feedback := last_rep_feedback self;
     feedback_timer := feedback_timer self |}.

Definition set_in_squat (v : bool) (self : SquatDashboard) :=
  {| rep_count := rep_count self; in_squat := v;
     current_rep_metrics := current_rep_metrics self;
     deepest_knee_angle := deepest_knee_angle self;
     deepest_torso_angle := deepest_torso_angle self;
     last_rep_feedback := last_rep_feedback self;
     feedback_timer := feedback_timer self |}.

Definition set_current_rep_metrics (v : list metrics) (self : SquatDashboard) :=
  {| rep_count := rep_count self; in_squat := in_squat self;
     current_rep_metrics := v;
     deepest_knee_angle := deepest_knee_angle self;
     deepest_torso_angle := deepest_torso_angle self;
     last_rep_feedback := last_rep_feedback self;
     feedback_timer := feedback_timer self |}.

Definition set_deepest_knee_angle (v : Q) (self : SquatDashboard) :=
  {| rep_count := rep_count self; in_squat := in_squat self;
     current_rep_metrics := current_rep_metrics self;
     deepest_knee_angle := v;
     deepest_torso_angle := deepest_torso_angle self;
     last_rep_feedback := last_rep_feedback self;
     feedback_timer := feedback_timer self |}.

Definition set_deepest_torso_angle (v : Q) (self : SquatDashboard) :=
  {| rep_count := rep_count self; in_squat := in_squat self;
     current_rep_metrics := current_rep_metrics self;
     deepest_knee_angle := deepest_knee_angle self;
     deepest_torso_angle := v;
     last_rep_feedback := last_rep_feedback self;
     feedback_timer := feedback_timer self |}.

Definition set_last_rep_feedback (v : string) (self : SquatDashboard) :=
  {| rep_count := rep_count self; in_squat := in_squat self;
     current_rep_metrics := current_rep_metrics self;
     deepest_knee_angle := deepest_knee_angle self;
     deepest_torso_angle := deepest_torso_angle self;
     last_rep_feedback := v;
     feedback_timer := feedback_timer self |}.

Definition set_feedback_timer (v : Z) (self : SquatDashboard) :=
  {| rep_count := rep_count self; in_squat := in_squat self;
     current_rep_metrics := current_rep_metrics self;
     deepest_knee_angle := deepest_knee_angle self;
     deepest_torso_angle := deepest_torso_angle self;
     last_rep_feedback := last_rep_feedback self;
     feedback_timer := v |}.

(** [SquatDashboard.__init__]: the rep counting state and the rep
    tracking for feedback. *)
Definition init : SquatDashboard :=
  {| rep_count := 0%Z;
     in_squat := false;
     current_rep_metrics := [];
     deepest_knee_angle := 180;
     deepest_torso_angle := 0;
     last_rep_feedback := "";
     feedback_timer := 0%Z |}.

(** ** [generate_rep_feedback] *)

(** The line appended by the analysis of the knee angle (depth). *)
Definition knee_feedback_line (deepest_knee : Q) : string :=
  if 170 <=? deepest_knee then "Too shallow - go deeper"
  else if (135 <? deepest_knee) && (deepest_knee <? 170) then
    "Shallow squat - try for more depth"
  else if (110 <=? deepest_knee) && (deepest_knee <=? 135) then
    "Perfect depth!"
  else if (90 <=? deepest_knee) && (deepest_knee <? 110) then "Good depth"
  else if (70 <=? deepest_knee) && (deepest_knee <? 90) then
    "Parallel depth achieved"
  else "Very deep - be careful".

(** The line appended by the analysis of the torso angle. *)
Definition torso_feedback_line (deepest_torso : Q) : string :=
  if (30 <=? deepest_torso) && (deepest_torso <=? 45) then
    "Good torso position"
  else if deepest_torso <? 30 then "Torso too upright"
  else if (45 <? deepest_torso) && (deepest_torso <=? 60) then
    "Slight forward lean"
  else "Too much forward lean".

Definition generate_rep_feedback (self : SquatDashboard) : SquatDashboard :=
  let feedback_lines := [] in
  let feedback_lines :=
    feedback_lines ++ [knee_feedback_line (deepest_knee_angle self)] in
  let feedback_lines :=
    feedback_lines ++ [torso_feedback_line (deepest_torso_angle self)] in
  set_last_rep_feedback (String.concat " | " feedback_lines) self.

(** ** [update_rep_count] *)

Definition update_rep_count (self : SquatDashboard)
    (knee_angle torso_angle : Q) : SquatDashboard :=
  if 0 <? knee_angle then
    if (knee_angle <? squat_threshold) && negb (in_squat self) then
      let self := set_in_squat true self in
      let self := set_deepest_knee_angle knee_angle self in
      let self := set_deepest_torso_angle torso_angle self in
      set_current_rep_metrics [] self
    else if in_squat self then
      let self :=
        if knee_angle <? deepest_knee_angle self then
          let self := set_deepest_knee_angle knee_angle self in
          set_deepest_torso_angle torso_angle self
        else self in
      let self :=
        set_current_rep_metrics
          (current_rep_metrics self ++
             [{| knee_angle := knee_angle; torso_angle := torso_angle |}])
          self in
      if squat_threshold <=? knee_angle then
        let self := set_in_squat false self in
        let self := set_rep_count (rep_count self + 1)%Z self in
        let self := generate_rep_feedback self in
        set_feedback_timer feedback_duration self
      else self
    else self
  else self.

(** The state effect of [draw_metrics]: the feedback timer counts down
    once per drawn frame and stops at 0.  (The drawing itself is left
    out.) *)
Definition draw_metrics (self : SquatDashboard) : SquatDashboard :=
  if (0 <? feedback_timer self)%Z then
    set_feedback_timer (feedback_timer self - 1)%Z self
  else self.

(** ** Sequences of update calls *)

(** One frame's measurement: the knee angle and the torso angle passed to
    [update_rep_count]. *)
Definition frame : Type := Q * Q.

Definition step (self : SquatDashboard) (f : frame) : SquatDashboard :=
  update_rep_count self (fst f) (snd f).

(** The state after a sequence of update calls. *)
Definition run (self : SquatDashboard) (fs : list frame) : SquatDashboard :=
  fold_left step fs self.

(** The states after each call of a sequence, in order. *)
Fixpoint states (self : SquatDashboard) (fs : list frame)
    : list SquatDashboard :=
  match fs with
  | [] => []
  | f :: fs' => step self f :: states (step self f) fs'
  end.

(** A frame is valid when its knee angle passes the guard of
    [update_rep_count]. *)
Definition valid (f : frame) : bool := 0 <? fst f.

(** [deepest_of self seen]: the deepest angles of [self] are the knee and
    torso angle of one frame of [seen], the first one whose knee angle is
    the minimum of the knee angles of [seen]. *)
Definition deepest_of (self : SquatDashboard) (seen : list frame) : Prop :=
  exists (pre : list frame) (f : frame) (post : list frame),
    seen = pre ++ f :: post /\
    fst f = deepest_knee_angle self /\
    snd f = deepest_torso_angle self /\
    Forall (fun g => deepest_knee_angle self < fst g) pre /\
    Forall (fun g => deepest_knee_angle self <= fst g) post.

(** While a rep is open the deepest knee angle is below the threshold. *)
Definition deepest_below_threshold (self : SquatDashboard) : Prop :=
  in_squat self = true -> deepest_knee_angle self < squat_threshold.

(** Python's [sub in s] on strings. *)
Fixpoint contains (sub s : string) : bool :=
  String.prefix sub s ||
  match s with
  | EmptyString => false
  | String _ s' => contains sub s'
  end.

(** The knee angles of a sequence, each paired with one torso angle. *)
Definition with_torso (torso : Q) (knees : list Q) : list frame :=
  map (fun k => (k, torso)) knees.

(** The knee angles of one squat: standing, three frames down, standing. *)
Definition one_squat : list Q := [180; 100; 100; 100; 180].

End Dashboard.

Module Geometry.

Local Open Scope R_scope.

(** A pose landmark, read through its attributes [x] and [y]. *)
Record landmark := { x : R; y : R }.

(** [np.arctan2 x1 x2], the polar angle of the point with abscissa [x2]
    and ordinate [x1], in (-PI, PI]; at the origin it is 0, as numpy
    returns for two positive zeros. *)
Definition arctan2 (x1 x2 : R) : R :=
  if Rlt_dec 0 x2 then atan (x1 / x2)
  else if Rlt_dec x2 0 then
    if Rle_dec 0 x1 then atan (x1 / x2) + PI else atan (x1 / x2) - PI
  else if Rlt_dec 0 x1 then PI / 2
  else if Rlt_dec x1 0 then - (PI / 2)
  else 0.

(** [calculate_angle]: the angle at [point2] between the rays to
    [point1] and to [point3], in degrees.  ([squat_dashboard_opencv.py]
    has the same method on coordinate pairs.) *)
Definition calculate_angle (point1 point2 point3 : landmark) : R :=
  let a := (x point1, y point1) in
  let b := (x point2, y point2) in
  let c := (x point3, y point3) in
  let radians :=
    arctan2 (snd c - snd b) (fst c - fst b)
    - arctan2 (snd a - snd b) (fst a - fst b) in
  let angle := Rabs (radians * 180 / PI) in
  if Rgt_dec angle 180 then 360 - angle else angle.

End Geometry.

Module Classifier.

Import Dashboard.
Local Open Scope string_scope.
Local Open Scope Q_scope.

(** A BGR colour triple of the overlay. *)
Definition color : Type := (Z * Z * Z)%type.

(** Python's [angle == 0] on numbers. *)
Definition Qeqb (x y : Q) : bool := Qeq_bool x y.
Infix "=?" := Qeqb (at level 70, no associativity) : Q_scope.

(** [get_knee_feedback]: the live label of the knee angle. *)
Definition get_knee_feedback (knee_angle : Q) : string * color :=
  if knee_angle =? 0 then ("No data", (128, 128, 128)%Z)
  else if 170 <=? knee_angle then ("Standing position", (255, 255, 255)%Z)
  else if (135 <? knee_angle) && (knee_angle <? 170) then
    ("Shallow squat", (0, 165, 255)%Z)
  else if (110 <=? knee_angle) && (knee_angle <=? 135) then
    ("Perfect depth!", (0, 255, 0)%Z)
  else if (90 <=? knee_angle) && (knee_angle <? 110) then
    ("Good depth", (0, 200, 0)%Z)
  else if (70 <=? knee_angle) && (knee_angle <? 90) then
    ("Parallel squat", (255, 255, 0)%Z)
  else ("Very deep squat", (255, 0, 255)%Z).

(** [get_torso_feedback]: the live label of the torso angle. *)
Definition get_torso_feedback (torso_angle : Q) : string * color :=
  if torso_angle =? 0 then ("No data", (128, 128, 128)%Z)
  else if (30 <=? torso_angle) && (torso_angle <=? 45) then
    ("Good torso angle", (0, 255, 0)%Z)
  else if (20 <=? torso_angle) && (torso_angle <? 30) then
    ("Too upright", (255, 165, 0)%Z)
  else if (45 <? torso_angle) && (torso_angle <=? 60) then
    ("Slight forward lean", (255, 255, 0)%Z)
  else if 60 <? torso_angle then ("Too much forward lean", (0, 0, 255)%Z)
  else ("Very upright", (255, 165, 0)%Z).

(** [get_depth_feedback]: the depth category of the knee angle. *)
Definition get_depth_feedback (knee_angle : Q) : string * color :=
  if knee_angle =? 0 then ("No data", (128, 128, 128)%Z)
  else if 135 <? knee_angle then ("Partial/Shallow", (255, 165, 0)%Z)
  else if (90 <=? knee_angle) && (knee_angle <=? 135) then
    ("Parallel to Deep", (0, 255, 0)%Z)
  else ("Very Deep", (0, 255, 255)%Z).

(** [get_overall_feedback]: the overall form assessment. *)
Definition get_overall_feedback (knee_angle torso_angle : Q) : string :=
  if (knee_angle =? 0) || (torso_angle =? 0) then "Checking form..."
  else
    let knee_good := (110 <=? knee_angle) && (knee_angle <=? 135) in
    let torso_good := (30 <=? torso_angle) && (torso_angle <=? 45) in
    if knee_good && torso_good then "Excellent form!"
    else if knee_good || torso_good then "Good form"
    else "Focus on form".

End Classifier.

Module Frames.

Import Dashboard.
Local Open Scope string_scope.
Local Open Scope Q_scope.

(** A pose landmark with the two attributes the dashboard reads. *)
Record landmark := { x : Q; y : Q }.

(** The four landmarks [process_frame] takes from
    [results.pose_landmarks.landmark]. *)
Record pose_landmarks := {
  RIGHT_SHOULDER : landmark;
  RIGHT_HIP : landmark;
  RIGHT_KNEE : landmark;
  RIGHT_ANKLE : landmark
}.

(** [get_depth_status]: the test [hip.y > knee.y]. *)
Definition get_depth_status (hip knee : landmark) : string :=
  if y knee <? y hip then "Below Parallel" else "Above Parallel".

(** The test [self.feedback_timer > 0 and self.last_rep_feedback] that
    guards the post-rep feedback box in [draw_metrics].  The method
    evaluates it after it has updated the timer, so the box of a frame
    is drawn when the test holds in the state [draw_metrics] returns. *)
Definition feedback_shown (self : SquatDashboard) : bool :=
  (0 <? feedback_timer self)%Z &&
  negb (String.eqb (last_rep_feedback self) "").

(** The states the dashboard reaches by calls of [update_rep_count] and
    [draw_metrics], in any order, after [__init__]. *)
Inductive reachable : SquatDashboard -> Prop :=
  | reachable_init : reachable init
  | reachable_update (self : SquatDashboard) (knee torso : Q) :
      reachable self -> reachable (update_rep_count self knee torso)
  | reachable_draw (self : SquatDashboard) :
      reachable self -> reachable (draw_metrics self).

(** The entry of [current_rep_metrics] stored for a frame. *)
Definition metrics_of (f : frame) : metrics :=
  {| knee_angle := fst f; torso_angle := snd f |}.

(** The number of frames that satisfy a test. *)
Definition count_frames (test : frame -> bool) (fs : list frame) : Z :=
  Z.of_nat (List.length (filter test fs)).

(** A valid frame below the threshold, and one at or above it. *)
Definition below_threshold (f : frame) : bool :=
  valid f && (fst f <? squat_threshold).
Definition at_threshold (f : frame) : bool :=
  valid f && (squat_threshold <=? fst f).

Section ProcessFrame.

(** The angle computed from three landmarks.  [calculate_angle] returns
    a float obtained through [np.arctan2]; the frame step below only
    hands it on to [update_rep_count], so it is kept general here. *)
Variable calculate_angle : landmark -> landmark -> landmark -> Q.

(** [process_frame] on the outcome [results] of the pose detection
    ([None] when [results.pose_landmarks] is empty): the next state and
    the returned knee angle, torso angle and depth status.  (The image
    and the drawing of the landmarks are left out.) *)
Definition process_frame (self : SquatDashboard)
    (results : option pose_landmarks)
    : SquatDashboard * (Q * Q * string) :=
  let knee_angle := 0 in
  let torso_angle := 0 in
  let depth_status := "Unknown" in
  let '(self, knee_angle, torso_angle, depth_status) :=
    match results with
    | Some landmarks =>
        let shoulder := RIGHT_SHOULDER landmarks in
        let hip := RIGHT_HIP landmarks in
        let knee := RIGHT_KNEE landmarks in
        let ankle := RIGHT_ANKLE landmarks in
        let knee_angle := calculate_angle hip knee ankle in
        let torso_angle := calculate_angle shoulder hip knee in
        let depth_status := get_depth_status hip knee in
        let self := update_rep_count self knee_angle torso_angle in
        (self, knee_angle, torso_angle, depth_status)
    | None => (self, knee_angle, torso_angle, depth_status)
    end in
  let self := draw_metrics self in
  (self, (knee_angle, torso_angle, depth_status)).

(** The state after the frames of a video, processed in order as
    [run_video] and [run_webcam] do. *)
Definition process_frames (self : SquatDashboard)
    (video : list (option pose_landmarks)) : SquatDashboard :=
  fold_left (fun self results => fst (process_frame self results))
    video self.

(** The angle pairs [process_frame] hands to [update_rep_count] for the
    frames of a video: one for each frame with a pose. *)
Fixpoint measured (video : list (option pose_landmarks)) : list frame :=
  match video with
  | [] => []
  | Some landmarks :: video' =>
      (calculate_angle (RIGHT_HIP landmarks) (RIGHT_KNEE landmarks)
         (RIGHT_ANKLE landmarks),
       calculate_angle (RIGHT_SHOULDER landmarks) (RIGHT_HIP landmarks)
         (RIGHT_KNEE landmarks)) :: measured video'
  | None :: video' => measured video'
  end.

End ProcessFrame.

End Frames.

(** [src/python/squat_dashboard_opencv.py]: the dashboard whose four
    points are set by mouse clicks.  (Its printing and drawing are left
    out.) *)
Module OpenCV.

Import Geometry.
Local Open Scope string_scope.
Local Open Scope Z_scope.

(** A clicked pixel position [(x, y)]. *)
Definition point : Type := (Z * Z)%type.

(** The dict [tracking_points]: string keys in insertion order, each
    with a point or [None]. *)
Definition dict : Type := list (string * option point).

(** [d[key]]; no result stands for [KeyError]. *)
Fixpoint getitem (d : dict) (key : string) : option (option point) :=
  match d with
  | [] => None
  | (k, v) :: d' => if String.eqb k key then Some v else getitem d' key
  end.

(** [d[key] = v]: an existing key keeps its place, a new one goes last. *)
Fixpoint setitem (d : dict) (key : string) (v : option point) : dict :=
  match d with
  | [] => [(key, v)]
  | (k, w) :: d' =>
      if String.eqb k key then (k, v) :: d' else (k, w) :: setitem d' key v
  end.

Definition values (d : dict) : list (option point) := map snd d.

(** [l[i]] on a Python list: a negative index counts from the end; no
    result stands for [IndexError]. *)
Definition index {A : Type} (l : list A) (i : Z) : option A :=
  let n := Z.of_nat (List.length l) in
  if 0 <=? i then nth_error l (Z.to_nat i)
  else if - n <=? i then nth_error l (Z.to_nat (n + i))
  else None.

(** [self.point_order], assigned in [__init__] and never changed. *)
Definition point_order : list string := ["shoulder"; "hip"; "knee"; "ankle"].

(** [cv2.EVENT_LBUTTONDOWN]. *)
Definition EVENT_LBUTTONDOWN : Z := 1.

Record SquatDashboard := {
  tracking_points : dict;
  setup_complete : bool;
  current_point : string;
  point_index : Z
}.

Definition set_tracking_points (v : dict) (self : SquatDashboard) :=
  {| tracking_points := v; setup_complete := setup_complete self;
     current_point := current_point self; point_index := point_index self |}.

Definition set_setup_complete (v : bool) (self : SquatDashboard) :=
  {| tracking_points := tracking_points self; setup_complete := v;
     current_point := current_point self; point_index := point_index self |}.

Definition set_current_point (v : string) (self : SquatDashboard) :=
  {| tracking_points := tracking_points self;
     setup_complete := setup_complete self;
     current_point := v; point_index := point_index self |}.

Definition set_point_index (v : Z) (self : SquatDashboard) :=
  {| tracking_points := tracking_points self;
     setup_complete := setup_complete self;
     current_point := current_point self; point_index := v |}.

(** [SquatDashboard.__init__]. *)
Definition init : SquatDashboard :=
  {| tracking_points :=
       [("shoulder", None); ("hip", None); ("knee", None); ("ankle", None)];
     setup_complete := false;
     current_point := "shoulder";
     point_index := 0 |}.

(** [mouse_callback]: the next state, or nothing when an index is out of
    range. *)
Definition mouse_callback (self : SquatDashboard) (event x y : Z)
    : option SquatDashboard :=
  if (event =? EVENT_LBUTTONDOWN) && negb (setup_complete self) then
    match index point_order (point_index self) with
    | None => None
    | Some current =>
        let self :=
          set_tracking_points
            (setitem (tracking_points self) current (Some (x, y))) self in
        let self := set_point_index (point_index self + 1) self in
        if Z.of_nat (List.length point_order) <=? point_index self then
          Some (set_setup_complete true self)
        else
          match index point_order (point_index self) with
          | None => None
          | Some name => Some (set_current_point name self)
          end
    end
  else Some self.

(** The reset of the points on the key 'r', in [run_webcam] and
    [run_video]. *)
Definition reset_points (self : SquatDashboard) : SquatDashboard :=
  let self :=
    set_tracking_points
      (map (fun kv => (fst kv, None)) (tracking_points self)) self in
  let self := set_setup_complete false self in
  let self := set_point_index 0 self in
  set_current_point "shoulder" self.

(** What reaches the dashboard between two frames: a mouse event or the
    key 'r'. *)
Inductive input : Type :=
  | Mouse (event x y : Z)
  | KeyR.

Definition handle (self : SquatDashboard) (i : input)
    : option SquatDashboard :=
  match i with
  | Mouse event x y => mouse_callback self event x y
  | KeyR => Some (reset_points self)
  end.

(** The state after a sequence of inputs; nothing once a call has
    raised. *)
Fixpoint handle_all (self : SquatDashboard) (inputs : list input)
    : option SquatDashboard :=
  match inputs with
  | [] => Some self
  | i :: inputs' =>
      match handle self i with
      | None => None
      | Some self' => handle_all self' inputs'
      end
  end.

(** The points clicked since the last reset, at most four: a click is a
    left-button event while fewer than four points are set. *)
Definition clicked_step (points : list point) (i : input) : list point :=
  match i with
  | Mouse event x y =>
      if (event =? EVENT_LBUTTONDOWN) && (List.length points <? 4)%nat
      then points ++ [(x, y)] else points
  | KeyR => []
  end.

Definition clicked (inputs : list input) : list point :=
  fold_left clicked_step inputs [].

(** The state in which exactly [points] have been set, in the order of
    [point_order]. *)
Definition calibrated (points : list point) : SquatDashboard :=
  {| tracking_points :=
       combine point_order
         (map Some points ++ repeat None (4 - List.length points)%nat);
     setup_complete := (4 <=? List.length points)%nat;
     current_point :=
       nth (Nat.min (List.length points) 3) point_order "shoulder";
     point_index := Z.of_nat (List.length points) |}.

(** [calculate_angle] on coordinate pairs.  The pairs become integer
    arrays, whose differences are exact for pixel positions. *)
Definition calculate_angle (point1 point2 point3 : point) : R :=
  let a := point1 in
  let b := point2 in
  let c := point3 in
  let radians :=
    (arctan2 (IZR (snd c - snd b)) (IZR (fst c - fst b))
     - arctan2 (IZR (snd a - snd b)) (IZR (fst a - fst b)))%R in
  let angle := Rabs (radians * 180 / PI) in
  if Rgt_dec angle 180 then (360 - angle)%R else angle.

(** [get_depth_status]: the test [hip[1] > knee[1]]. *)
Definition get_depth_status (hip knee : point) : string :=
  if snd knee <? snd hip then "Below Parallel" else "Above Parallel".

(** The values of a dict are all set. *)
Definition all_set (d : dict) : bool :=
  forallb (fun v => match v with Some _ => true | None => false end)
    (values d).

(** [process_frame]: the returned knee angle, torso angle and depth
    status; nothing when a lookup raises. *)
Definition process_frame (self : SquatDashboard) : option (R * R * string) :=
  let knee_angle := 0%R in
  let torso_angle := 0%R in
  let depth_status := "Unknown" in
  if setup_complete self && all_set (tracking_points self) then
    match getitem (tracking_points self) "shoulder",
          getitem (tracking_points self) "hip",
          getitem (tracking_points self) "knee",
          getitem (tracking_points self) "ankle" with
    | Some (Some shoulder), Some (Some hip), Some (Some knee),
      Some (Some ankle) =>
        let knee_angle := calculate_angle hip knee ankle in
        let torso_angle := calculate_angle shoulder hip knee in
        let depth_status := get_depth_status hip knee in
        Some (knee_angle, torso_angle, depth_status)
    | _, _, _, _ => None
    end
  else Some (knee_angle, torso_angle, depth_status).

End OpenCV.

(** * Properties of the rep counter *)

Module RepCounter.

Import Dashboard.
Local Open Scope string_scope.
Local Open Scope list_scope.
Local Open Scope Q_scope.

(** ** The boolean tests decide the order of [Q] *)

Lemma Qltb_spec (x y : Q) : reflect (x < y) (x <? y).
Proof.
  unfold Qltb, Qlt. apply iff_reflect. symmetry. apply Z.ltb_lt.
Qed.

Lemma Qleb_spec (x y : Q) : reflect (x <= y) (x <=? y).
Proof.
  unfold Qleb. apply iff_reflect. symmetry. apply Qle_bool_iff.
Qed.

Lemma Qltb_true (x y : Q) : x < y -> (x <? y) = true.
Proof. intros H. destruct (Qltb_spec x y); [reflexivity | contradiction]. Qed.

Lemma Qltb_false (x y : Q) : y <= x -> (x <? y) = false.
Proof. intros H. destruct (Qltb_spec x y); [lra | reflexivity]. Qed.

Lemma Qleb_true (x y : Q) : x <= y -> (x <=? y) = true.
Proof. intros H. destruct (Qleb_spec x y); [reflexivity | contradiction]. Qed.

Lemma Qleb_false (x y : Q) : y < x -> (x <=? y) = false.
Proof. intros H. destruct (Qleb_spec x y); [lra | reflexivity]. Qed.

(** Case analysis on every angle test of the goal. *)
Ltac angle_cases :=
  repeat match goal with
  | |- context [?a <? ?b] => destruct (Qltb_spec a b)
  | |- context [?a <=? ?b] => destruct (Qleb_spec a b)
  end.

(** ** Sequences of calls *)

Lemma run_app (self : SquatDashboard) (fs gs : list frame) :
  run self (fs ++ gs) = run (run self fs) gs.
Proof. unfold run. apply fold_left_app. Qed.

Lemma run_cons (self : SquatDashboard) (f : frame) (fs : list frame) :
  run self (f :: fs) = run (step self f) fs.
Proof. reflexivity. Qed.

Lemma run_snoc (self : SquatDashboard) (fs : list frame) (f : frame) :
  run self (fs ++ [f]) = step (run self fs) f.
Proof. rewrite run_app. reflexivity. Qed.

Lemma states_app (self : SquatDashboard) (fs gs : list frame) :
  states self (fs ++ gs) = states self fs ++ states (run self fs) gs.
Proof.
  revert self. induction fs as [|f fs IH]; intros self; simpl.
  - reflexivity.
  - rewrite IH. reflexivity.
Qed.

(** ** An invalid frame *)

Lemma update_invalid (self : SquatDashboard) (knee torso : Q) :
  knee <= 0 -> update_rep_count self knee torso = self.
Proof.
  intros H. unfold update_rep_count. rewrite (Qltb_false _ _ H). reflexivity.
Qed.

(** ** A frame at or above the threshold while standing *)

Lemma update_standing (self : SquatDashboard) (knee torso : Q) :
  in_squat self = false -> squat_threshold <= knee ->
  update_rep_count self knee torso = self.
Proof.
  intros Hs Hk. unfold update_rep_count.
  rewrite (Qltb_false _ _ Hk), Hs. simpl.
  destruct (0 <? knee); reflexivity.
Qed.

(** ** One squat: 180, 100, 100, 100, 180 *)

Lemma one_squat_state (torso : Q) :
  run init (with_torso torso one_squat) =
  {| rep_count := 1;
     in_squat := false;
     current_rep_metrics :=
       [{| knee_angle := 100; torso_angle := torso |};
        {| knee_angle := 100; torso_angle := torso |};
        {| knee_angle := 180; torso_angle := torso |}];
     deepest_knee_angle := 100;
     deepest_torso_angle := torso;
     last_rep_feedback :=
       String.concat " | " ["Good depth"; torso_feedback_line torso];
     feedback_timer := 180 |}.
Proof. reflexivity. Qed.

(** C1, as the claim states it, fails: with the torso angle 35 of its own
    example the rep is counted and the deepest knee angle is 100, but the
    feedback holds no "Perfect depth!" (100 lies in the band [90, 110) of
    "Good depth"); and a valid torso angle outside [30, 45], here 70,
    gives no "Good torso position". *)
Lemma one_squat_not_perfect_depth :
  rep_count (run init (with_torso 35 one_squat)) = 1%Z /\
  deepest_knee_angle (run init (with_torso 35 one_squat)) = 100 /\
  contains "Perfect depth!"
    (last_rep_feedback (run init (with_torso 35 one_squat))) = false /\
  contains "Good torso position"
    (last_rep_feedback (run init (with_torso 70 one_squat))) = false.
Proof. repeat split; reflexivity. Qed.

(** C1, amended: from the initial state, the knee angles
    180, 100, 100, 100, 180 with any constant torso angle leave
    [rep_count] at exactly 1 and the deepest knee angle at 100, and the
    feedback is "Good depth" joined with the torso line of that angle;
    for a torso angle in [30, 45] it is
    "Good depth | Good torso position". *)
Theorem one_squat_feedback (torso : Q) :
  let self := run init (with_torso torso one_squat) in
  rep_count self = 1%Z /\
  in_squat self = false /\
  deepest_knee_angle self = 100 /\
  deepest_torso_angle self = torso /\
  knee_feedback_line (deepest_knee_angle self) = "Good depth"%string /\
  last_rep_feedback self =
    ("Good depth | " ++ torso_feedback_line torso)%string /\
  (30 <= torso <= 45 ->
   last_rep_feedback self = "Good depth | Good torso position"%string /\
   contains "Good depth" (last_rep_feedback self) = true /\
   contains "Good torso position" (last_rep_feedback self) = true).
Proof.
  intros self. subst self. rewrite one_squat_state. simpl.
  repeat split; try reflexivity.
  all: destruct H as [Hlo Hhi]; unfold torso_feedback_line;
    rewrite (Qleb_true _ _ Hlo), (Qleb_true _ _ Hhi); reflexivity.
Qed.

Lemma one_squat_feedback_witness :
  30 <= 35 <= 45 /\
  last_rep_feedback (run init (with_torso 35 one_squat)) =
    "Good depth | Good torso position"%string.
Proof.
  assert (H : 30 <= 35 <= 45) by (split; discriminate).
  split; [exact H|].
  exact (proj1 (proj2 (proj2 (proj2 (proj2 (proj2 (proj2
    (one_squat_feedback 35)))))) H)).
Defined.

(** ** Completing a rep *)

Lemma update_exit (self : SquatDashboard) (knee torso : Q) :
  in_squat self = true -> 0 < knee -> squat_threshold <= knee ->
  let self' := update_rep_count self knee torso in
  in_squat self' = false /\
  rep_count self' = (rep_count self + 1)%Z /\
  last_rep_feedback self' =
    (knee_feedback_line (deepest_knee_angle self') ++ " | " ++
     torso_feedback_line (deepest_torso_angle self'))%string /\
  feedback_timer self' = feedback_duration /\
  (deepest_knee_angle self < squat_threshold ->
   deepest_knee_angle self' = deepest_knee_angle self /\
   deepest_torso_angle self' = deepest_torso_angle self).
Proof.
  intros Hs Hv Hk. unfold update_rep_count.
  rewrite Hs, (Qltb_true _ _ Hv), (Qltb_false _ _ Hk), (Qleb_true _ _ Hk).
  simpl.
  destruct (Qltb_spec knee (deepest_knee_angle self)) as [Hd|Hd]; simpl;
    repeat split; try reflexivity; intros; lra.
Qed.

(** C2: in a state with [in_squat] set, an update call with a valid knee
    angle at or above the threshold 140 clears [in_squat], adds exactly 1
    to [rep_count], sets the feedback to the two lines computed from the
    deepest knee and torso angles of the rep, joined by " | ", and sets
    the feedback timer to 180.  The deepest angles are those the state
    keeps after the call; they are the ones it held before whenever the
    deepest knee angle was below the threshold, as it is in every state
    the counter reaches with [in_squat] set. *)
Theorem update_completes_rep (self : SquatDashboard) (knee torso : Q) :
  in_squat self = true -> 0 < knee -> 140 <= knee ->
  let self' := update_rep_count self knee torso in
  in_squat self' = false /\
  rep_count self' = (rep_count self + 1)%Z /\
  last_rep_feedback self' =
    (knee_feedback_line (deepest_knee_angle self') ++ " | " ++
     torso_feedback_line (deepest_torso_angle self'))%string /\
  feedback_timer self' = 180%Z /\
  (deepest_knee_angle self < 140 ->
   deepest_knee_angle self' = deepest_knee_angle self /\
   deepest_torso_angle self' = deepest_torso_angle self).
Proof. exact (update_exit self knee torso). Qed.

Lemma update_completes_rep_witness :
  let self := run init [(100, 35)] in
  let self' := update_rep_count self 180 35 in
  in_squat self' = false /\
  rep_count self' = (rep_count self + 1)%Z /\
  last_rep_feedback self' =
    (knee_feedback_line (deepest_knee_angle self') ++ " | " ++
     torso_feedback_line (deepest_torso_angle self'))%string /\
  feedback_timer self' = 180%Z /\
  (deepest_knee_angle self < 140 ->
   deepest_knee_angle self' = deepest_knee_angle self /\
   deepest_torso_angle self' = deepest_torso_angle self).
Proof.
  apply (update_completes_rep (run init [(100, 35)]) 180 35).
  - reflexivity.
  - reflexivity.
  - discriminate.
Defined.

(** ** Frames without a pose *)

(** C4: an update call with the knee angle 0 of a frame without a pose
    returns the state as it was: [rep_count], [in_squat] and the deepest
    angles are unchanged and no rep is completed (the feedback and its
    timer stay too).  Put anywhere in a sequence of calls, also inside an
    open rep, such a frame does not change the outcome. *)
Theorem update_missing_pose :
  (forall (self : SquatDashboard) (torso : Q),
     let self' := update_rep_count self 0 torso in
     rep_count self' = rep_count self /\
     in_squat self' = in_squat self /\
     deepest_knee_angle self' = deepest_knee_angle self /\
     deepest_torso_angle self' = deepest_torso_angle self /\
     self' = self) /\
  (forall (self : SquatDashboard) (fs gs : list frame) (torso : Q),
     run self (fs ++ (0, torso) :: gs) = run self (fs ++ gs)).
Proof.
  split.
  - intros self torso. repeat split; reflexivity.
  - intros self fs gs torso. rewrite !run_app. reflexivity.
Qed.

(** C10: the guard of [update_rep_count] is [knee_angle > 0]: for every
    knee angle that is not positive, negative ones as well as 0, the call
    returns the state as it was, so [rep_count], [in_squat] and the
    deepest angles are unchanged. *)
Theorem update_nonpositive_knee (self : SquatDashboard) (knee torso : Q) :
  knee <= 0 ->
  let self' := update_rep_count self knee torso in
  rep_count self' = rep_count self /\
  in_squat self' = in_squat self /\
  deepest_knee_angle self' = deepest_knee_angle self /\
  deepest_torso_angle self' = deepest_torso_angle self /\
  self' = self.
Proof.
  intros H self'. subst self'. rewrite (update_invalid _ _ _ H).
  repeat split; reflexivity.
Qed.

Lemma update_nonpositive_knee_witness :
  let self := run init [(100, 35)] in
  let self' := update_rep_count self (-5) 20 in
  rep_count self' = rep_count self /\
  in_squat self' = in_squat self /\
  deepest_knee_angle self' = deepest_knee_angle self /\
  deepest_torso_angle self' = deepest_torso_angle self /\
  self' = self.
Proof.
  apply (update_nonpositive_knee (run init [(100, 35)]) (-5) 20).
  discriminate.
Defined.

(** ** Standing throughout *)

Lemma states_standing (self : SquatDashboard) (fs : list frame) :
  in_squat self = false ->
  Forall (fun f => squat_threshold <= fst f) fs ->
  Forall (fun self' => self' = self) (states self fs) /\ run self fs = self.
Proof.
  intros Hs Hfs. induction Hfs as [|f fs Hf _ [IH1 IH2]].
  - split; [constructor | reflexivity].
  - assert (Hstep : step self f = self)
      by (apply update_standing; assumption).
    split.
    + simpl. rewrite Hstep. constructor; [reflexivity | exact IH1].
    + rewrite run_cons, Hstep. exact IH2.
Qed.

(** C5: from the initial state, along a sequence of update calls whose
    knee angle is never below 140, [rep_count] is 0 and [in_squat] is
    false after every call (and so at the end). *)
Theorem standing_never_counts (fs : list frame) :
  Forall (fun f => 140 <= fst f) fs ->
  Forall (fun self => rep_count self = 0%Z /\ in_squat self = false)
    (states init fs) /\
  rep_count (run init fs) = 0%Z /\ in_squat (run init fs) = false.
Proof.
  intros Hfs.
  destruct (states_standing init fs eq_refl Hfs) as [Hall Hrun].
  split.
  - eapply Forall_impl; [|exact Hall].
    intros self' ->. split; reflexivity.
  - rewrite Hrun. split; reflexivity.
Qed.

Lemma standing_never_counts_witness :
  Forall (fun self => rep_count self = 0%Z /\ in_squat self = false)
    (states init [(180, 35); (140, 20); (165, 50)]) /\
  rep_count (run init [(180, 35); (140, 20); (165, 50)]) = 0%Z /\
  in_squat (run init [(180, 35); (140, 20); (165, 50)]) = false.
Proof.
  apply (standing_never_counts [(180, 35); (140, 20); (165, 50)]).
  repeat constructor; discriminate.
Defined.

(** ** The counter never goes down *)

Lemma rep_count_update (self : SquatDashboard) (knee torso : Q) :
  rep_count (update_rep_count self knee torso) = rep_count self \/
  rep_count (update_rep_count self knee torso) = (rep_count self + 1)%Z.
Proof.
  unfold update_rep_count.
  destruct (0 <? knee); [|left; reflexivity].
  destruct ((knee <? squat_threshold) && negb (in_squat self));
    [left; reflexivity|].
  destruct (in_squat self); [|left; reflexivity].
  destruct (squat_threshold <=? knee); [right|left];
    destruct (knee <? deepest_knee_angle self); reflexivity.
Qed.

Lemma rep_count_step (self : SquatDashboard) (f : frame) :
  (rep_count self <= rep_count (step self f))%Z.
Proof.
  unfold step.
  destruct (rep_count_update self (fst f) (snd f)) as [H|H]; rewrite H; lia.
Qed.

Lemma rep_count_run (self : SquatDashboard) (fs : list frame) :
  (rep_count self <= rep_count (run self fs))%Z.
Proof.
  revert self. induction fs as [|f fs IH]; intros self.
  - apply Z.le_refl.
  - rewrite run_cons.
    apply Z.le_trans with (rep_count (step self f));
      [apply rep_count_step | apply IH].
Qed.

(** C6: [rep_count] starts at 0, no operation on the state lowers it
    ([update_rep_count] leaves it or adds 1, [generate_rep_feedback] and
    [draw_metrics] leave it), and so along every sequence of update calls
    from the initial state it is never negative and never decreases. *)
Theorem rep_count_monotone :
  rep_count init = 0%Z /\
  (forall self knee torso,
     (rep_count self <= rep_count (update_rep_count self knee torso))%Z) /\
  (forall self,
     rep_count (generate_rep_feedback self) = rep_count self) /\
  (forall self, rep_count (draw_metrics self) = rep_count self) /\
  (forall fs gs : list frame,
     (0 <= rep_count (run init fs))%Z /\
     (rep_count (run init fs) <= rep_count (run init (fs ++ gs)))%Z).
Proof.
  split; [reflexivity|]. split; [|split; [|split]].
  - intros self knee torso. apply (rep_count_step self (knee, torso)).
  - reflexivity.
  - intros self. unfold draw_metrics.
    destruct (0 <? feedback_timer self)%Z; reflexivity.
  - intros fs gs. split.
    + apply (rep_count_run init fs).
    + rewrite run_app. apply rep_count_run.
Qed.

(** ** The deepest position of the open rep *)

Lemma step_opens (self : SquatDashboard) (f : frame) :
  in_squat self = false -> in_squat (step self f) = true ->
  valid f = true /\ fst f < squat_threshold /\
  deepest_knee_angle (step self f) = fst f /\
  deepest_torso_angle (step self f) = snd f.
Proof.
  unfold step, valid, update_rep_count. intros Hs.
  rewrite Hs, andb_true_r.
  destruct (Qltb_spec 0 (fst f)); [|congruence].
  destruct (Qltb_spec (fst f) squat_threshold); [|congruence].
  simpl. auto.
Qed.

Lemma step_stays_open (self : SquatDashboard) (f : frame) :
  in_squat self = true -> in_squat (step self f) = true ->
  step self f = self /\ (valid f = false \/ deepest_knee_angle self <= fst f)
  \/
  valid f = true /\ fst f < deepest_knee_angle self /\
  deepest_knee_angle (step self f) = fst f /\
  deepest_torso_angle (step self f) = snd f
  \/
  valid f = true /\ deepest_knee_angle self <= fst f /\
  deepest_knee_angle (step self f) = deepest_knee_angle self /\
  deepest_torso_angle (step self f) = deepest_torso_angle self.
Proof.
  unfold step, valid, update_rep_count. intros Hs.
  rewrite Hs, andb_false_r.
  destruct (Qltb_spec 0 (fst f)); [|left; auto].
  destruct (Qleb_spec squat_threshold (fst f)).
  - destruct (fst f <? deepest_knee_angle self); simpl; congruence.
  - destruct (Qltb_spec (fst f) (deepest_knee_angle self)); simpl; intros _;
      right; [left | right]; repeat split; try reflexivity; lra.
Qed.

Lemma deepest_of_opening (self : SquatDashboard) (f : frame) :
  in_squat self = false -> in_squat (step self f) = true ->
  deepest_of (step self f) (filter valid [f]).
Proof.
  intros Hs Hs'.
  destruct (step_opens self f Hs Hs') as (Hv & _ & Hk & Ht).
  simpl. rewrite Hv. exists [], f, [].
  repeat split; auto.
Qed.

Lemma deepest_of_step (self : SquatDashboard) (seen : list frame) (f : frame) :
  in_squat self = true -> in_squat (step self f) = true ->
  deepest_of self seen ->
  deepest_of (step self f) (seen ++ filter valid [f]).
Proof.
  intros Hs Hs' (pre & f0 & post & Hseen & Hk0 & Ht0 & Hpre & Hpost).
  destruct (step_stays_open self f Hs Hs')
    as [[Heq Hf] | [(Hv & Hlt & Hk & Ht) | (Hv & Hle & Hk & Ht)]].
  - rewrite Heq. destruct Hf as [Hv | Hle].
    + simpl. rewrite Hv, app_nil_r.
      exists pre, f0, post. auto.
    + simpl. destruct (valid f).
      * exists pre, f0, (post ++ [f]). subst seen.
        rewrite <- app_assoc. repeat split; auto.
        apply Forall_app. split; [exact Hpost | constructor; auto].
      * rewrite app_nil_r. exists pre, f0, post. auto.
  - simpl. rewrite Hv. exists seen, f, []. rewrite Hk, Ht.
    repeat split; auto. subst seen.
    apply Forall_app. split.
    + eapply Forall_impl; [|exact Hpre]. simpl. intros g Hg. lra.
    + constructor; [rewrite Hk0; exact Hlt|].
      eapply Forall_impl; [|exact Hpost]. simpl. intros g Hg. lra.
  - simpl. rewrite Hv. exists pre, f0, (post ++ [f]). rewrite Hk, Ht.
    subst seen. rewrite <- app_assoc. repeat split; auto.
    apply Forall_app. split; [exact Hpost | constructor; auto].
Qed.

(** C3: take any sequence of update calls from a state outside a squat
    (the initial state is one) that ends with [in_squat] set.  The
    sequence splits at the call [f0] that opened the current rep: before
    it [in_squat] was false, and after it and after every later call
    [in_squat] is true.  Then the deepest knee angle is the minimum of the
    knee angles of the valid frames from [f0] on, [f0] included, and the
    deepest torso angle is the torso angle of the frame where that minimum
    was first reached. *)
Theorem deepest_tracks_minimum (self : SquatDashboard) (fs : list frame) :
  in_squat self = false ->
  in_squat (run self fs) = true ->
  exists (before : list frame) (f0 : frame) (since : list frame),
    fs = before ++ f0 :: since /\
    in_squat (run self before) = false /\
    Forall (fun self' => in_squat self' = true)
      (states (run self before) (f0 :: since)) /\
    deepest_of (run self fs) (filter valid (f0 :: since)).
Proof.
  intros Hs. induction fs as [|f fs IH] using rev_ind; intros Hend.
  - simpl in Hend. congruence.
  - rewrite run_snoc in Hend.
    destruct (in_squat (run self fs)) eqn:Hfs.
    + destruct (IH eq_refl) as (before & f0 & since & Hsplit & Hb & Hopen & Hd).
      assert (Hrun : run (run self before) (f0 :: since) = run self fs)
        by (rewrite <- run_app, <- Hsplit; reflexivity).
      exists before, f0, (since ++ [f]). repeat split.
      * rewrite Hsplit, <- app_assoc. reflexivity.
      * exact Hb.
      * change (f0 :: since ++ [f]) with ((f0 :: since) ++ [f]).
        rewrite states_app, Hrun. apply Forall_app. split; [exact Hopen|].
        simpl. constructor; [exact Hend | constructor].
      * change (f0 :: since ++ [f]) with ((f0 :: since) ++ [f]).
        rewrite filter_app, run_snoc.
        apply deepest_of_step; assumption.
    + exists fs, f, []. repeat split.
      * exact Hfs.
      * simpl. constructor; [exact Hend | constructor].
      * rewrite run_snoc. apply deepest_of_opening; assumption.
Qed.

Lemma deepest_tracks_minimum_witness :
  let fs := [(180, 35); (120, 40); (0, 0); (100, 50); (130, 30)] in
  exists (before : list frame) (f0 : frame) (since : list frame),
    fs = before ++ f0 :: since /\
    in_squat (run init before) = false /\
    Forall (fun self' => in_squat self' = true)
      (states (run init before) (f0 :: since)) /\
    deepest_of (run init fs) (filter valid (f0 :: since)).
Proof.
  apply (deepest_tracks_minimum init
           [(180, 35); (120, 40); (0, 0); (100, 50); (130, 30)]).
  - reflexivity.
  - reflexivity.
Defined.

(** The deepest torso angle is the one of the frame with the least knee
    angle, here 50 at knee angle 100, although a later frame of the same
    rep has the smaller torso angle 30. *)
Example deepest_torso_not_minimised :
  let self := run init [(120, 40); (100, 50); (130, 30)] in
  in_squat self = true /\
  deepest_knee_angle self = 100 /\
  deepest_torso_angle self = 50.
Proof. repeat split; reflexivity. Qed.

(** ** The knee line of a completed rep *)

Lemma deepest_below_threshold_step (self : SquatDashboard) (f : frame) :
  deepest_below_threshold self -> deepest_below_threshold (step self f).
Proof.
  unfold deepest_below_threshold. intros Hinv Hs'.
  destruct (in_squat self) eqn:Hs.
  - specialize (Hinv eq_refl).
    destruct (step_stays_open self f Hs Hs')
      as [[Heq _] | [(_ & Hlt & Hk & _) | (_ & _ & Hk & _)]].
    + rewrite Heq. exact Hinv.
    + rewrite Hk. lra.
    + rewrite Hk. exact Hinv.
  - destruct (step_opens self f Hs Hs') as (_ & Hlt & Hk & _).
    rewrite Hk. exact Hlt.
Qed.

Lemma deepest_below_threshold_run (fs : list frame) (self : SquatDashboard) :
  deepest_below_threshold self -> deepest_below_threshold (run self fs).
Proof.
  revert self. induction fs as [|f fs IH]; intros self Hinv.
  - exact Hinv.
  - rewrite run_cons. apply IH, deepest_below_threshold_step, Hinv.
Qed.

Lemma deepest_below_threshold_init : deepest_below_threshold init.
Proof. intros H. discriminate H. Qed.

Lemma knee_feedback_line_too_shallow (d : Q) :
  knee_feedback_line d = "Too shallow - go deeper" <-> 170 <= d.
Proof.
  unfold knee_feedback_line.
  angle_cases; simpl; split; intros H;
    try reflexivity; try discriminate H; try assumption; lra.
Qed.

Lemma knee_feedback_line_shallow (d : Q) :
  knee_feedback_line d = "Shallow squat - try for more depth" <->
  135 < d < 170.
Proof.
  unfold knee_feedback_line.
  angle_cases; simpl; split; intros H;
    try reflexivity; try discriminate H; lra.
Qed.

(** C7, as the claim states it, fails: the rep opened at knee angle 138
    has its deepest knee angle below 140, and when it is completed the
    generator takes the branch "Shallow squat - try for more depth",
    whose band (135, 170) reaches below the threshold. *)
Lemma shallow_squat_branch_reached :
  let self := run init [(138, 35)] in
  in_squat self = true /\
  (deepest_knee_angle self <? 140) = true /\
  knee_feedback_line (deepest_knee_angle (update_rep_count self 180 35)) =
    "Shallow squat - try for more depth" /\
  last_rep_feedback (update_rep_count self 180 35) =
    "Shallow squat - try for more depth | Good torso position".
Proof. repeat split; reflexivity. Qed.

(** C7, amended: in every state reached from the initial state with
    [in_squat] set, the deepest knee angle is strictly below the
    threshold 140.  So when an update call completes the rep, the
    generator works on a deepest knee angle below 140: its knee line is
    never "Too shallow - go deeper", and it is
    "Shallow squat - try for more depth" exactly when the deepest knee
    angle is above 135. *)
Theorem completed_rep_knee_line (fs : list frame) (knee torso : Q) :
  let self := run init fs in
  in_squat self = true ->
  deepest_knee_angle self < 140 /\
  (0 < knee -> 140 <= knee ->
   let self' := update_rep_count self knee torso in
   deepest_knee_angle self' = deepest_knee_angle self /\
   last_rep_feedback self' =
     (knee_feedback_line (deepest_knee_angle self) ++ " | " ++
      torso_feedback_line (deepest_torso_angle self))%string /\
   knee_feedback_line (deepest_knee_angle self) <>
     "Too shallow - go deeper" /\
   (knee_feedback_line (deepest_knee_angle self) =
      "Shallow squat - try for more depth" <->
    135 < deepest_knee_angle self)).
Proof.
  intros self Hs.
  assert (Hd : deepest_knee_angle self < 140)
    by (apply (deepest_below_threshold_run fs init
                 deepest_below_threshold_init), Hs).
  split; [exact Hd|]. intros Hv Hk self'.
  destruct (update_exit self knee torso Hs Hv Hk)
    as (_ & _ & Hfb & _ & Hkeep).
  destruct (Hkeep Hd) as [Hk' Ht']. fold self' in Hfb, Hk', Ht'.
  rewrite Hk', Ht' in Hfb.
  repeat split.
  - exact Hk'.
  - exact Hfb.
  - intros H. apply knee_feedback_line_too_shallow in H. lra.
  - intros H. apply knee_feedback_line_shallow in H. lra.
  - intros H. apply knee_feedback_line_shallow. lra.
Qed.

Lemma completed_rep_knee_line_witness :
  let self := run init [(138, 35)] in
  let self' := update_rep_count self 180 35 in
  deepest_knee_angle self < 140 /\
  last_rep_feedback self' =
    (knee_feedback_line (deepest_knee_angle self) ++ " | " ++
     torso_feedback_line (deepest_torso_angle self))%string /\
  knee_feedback_line (deepest_knee_angle self) <> "Too shallow - go deeper".
Proof.
  destruct (completed_rep_knee_line [(138, 35)] 180 35 eq_refl)
    as [Hd Hcall].
  destruct Hcall as (_ & Hfb & Hnot & _).
  - reflexivity.
  - discriminate.
  - split; [exact Hd | split; [exact Hfb | exact Hnot]].
Defined.

End RepCounter.

(** * Properties of the angle calculator *)

Module AngleCalculator.

Import Geometry.
Local Open Scope R_scope.

Lemma atan_nonpos (z : R) : z <= 0 -> atan z <= 0.
Proof.
  intros [Hz | Hz].
  - left. rewrite <- atan_0. apply atan_increasing. exact Hz.
  - subst z. rewrite atan_0. apply Rle_refl.
Qed.

Lemma atan_pos (z : R) : 0 < z -> 0 < atan z.
Proof. intros Hz. rewrite <- atan_0. apply atan_increasing. exact Hz. Qed.

(** The polar angle lies in (-PI, PI]. *)
Lemma arctan2_bound (x1 x2 : R) : - PI < arctan2 x1 x2 <= PI.
Proof.
  pose proof PI_RGT_0 as Hpi.
  pose proof (atan_bound (x1 / x2)) as [Hlo Hhi].
  unfold arctan2.
  destruct (Rlt_dec 0 x2) as [Hx|Hx]; [lra|].
  destruct (Rlt_dec x2 0) as [Hx'|Hx'].
  - assert (Hinv : / x2 < 0) by (apply Rinv_lt_0_compat; exact Hx').
    destruct (Rle_dec 0 x1) as [Hy|Hy].
    + assert (Hz : x1 / x2 <= 0) by (unfold Rdiv; nra).
      pose proof (atan_nonpos _ Hz). lra.
    + assert (Hz : 0 < x1 / x2) by (unfold Rdiv; nra).
      pose proof (atan_pos _ Hz). lra.
  - destruct (Rlt_dec 0 x1); [lra|].
    destruct (Rlt_dec x1 0); lra.
Qed.

(** The absolute difference of two polar angles, in degrees. *)
Lemma abs_degrees_swap (p q : R) :
  Rabs ((p - q) * 180 / PI) = Rabs ((q - p) * 180 / PI).
Proof. rewrite <- Rabs_Ropp. f_equal. field. apply PI_neq0. Qed.

Lemma abs_degrees_range (p q : R) :
  - PI < p <= PI -> - PI < q <= PI ->
  0 <= Rabs ((p - q) * 180 / PI) < 360.
Proof.
  pose proof PI_RGT_0 as Hpi. intros [Hp1 Hp2] [Hq1 Hq2].
  assert (Heq : (p - q) * 180 / PI * PI = (p - q) * 180)
    by (field; apply PI_neq0).
  split; [apply Rabs_pos|].
  apply Rabs_def1; apply (Rmult_lt_reg_r PI); try exact Hpi;
    rewrite Heq; lra.
Qed.

Lemma calculate_angle_range (point1 point2 point3 : landmark) :
  0 <= calculate_angle point1 point2 point3 <= 180.
Proof.
  unfold calculate_angle. cbn [fst snd].
  pose proof (abs_degrees_range _ _
                (arctan2_bound (y point3 - y point2) (x point3 - x point2))
                (arctan2_bound (y point1 - y point2) (x point1 - x point2)))
    as [Hlo Hhi].
  destruct (Rgt_dec _ 180) as [Hgt|Hle]; lra.
Qed.

(** Case analysis on every test on reals of the goal, closing the
    cases whose test contradicts the arithmetic at hand. *)
Ltac real_cases :=
  repeat match goal with
  | |- context [Rlt_dec ?u ?v] => destruct (Rlt_dec u v); try lra
  | |- context [Rle_dec ?u ?v] => destruct (Rle_dec u v); try lra
  | |- context [Rgt_dec ?u ?v] => destruct (Rgt_dec u v); try lra
  end.

(** A right angle: the arms from the origin to (1, 0) and to (0, 1). *)
Example calculate_angle_right :
  calculate_angle {| x := 1; y := 0 |} {| x := 0; y := 0 |}
    {| x := 0; y := 1 |} = 90.
Proof.
  pose proof PI_RGT_0 as Hpi.
  assert (H : Rabs ((arctan2 (1 - 0) (0 - 0) - arctan2 (0 - 0) (1 - 0))
                    * 180 / PI) = 90).
  { unfold arctan2. real_cases.
    replace ((0 - 0) / (1 - 0)) with 0 by field. rewrite atan_0.
    replace ((PI / 2 - 0) * 180 / PI) with 90 by (field; lra).
    apply Rabs_right. lra. }
  unfold calculate_angle. cbn [fst snd x y]. rewrite H. real_cases.
Qed.

(** The same right angle reached through the reflection: the polar
    angles 135 and -135 degrees differ by 270. *)
Example calculate_angle_reflected :
  calculate_angle {| x := -1; y := -1 |} {| x := 0; y := 0 |}
    {| x := -1; y := 1 |} = 90.
Proof.
  pose proof PI_RGT_0 as Hpi.
  assert (H : Rabs ((arctan2 (1 - 0) (-1 - 0) - arctan2 (-1 - 0) (-1 - 0))
                    * 180 / PI) = 270).
  { unfold arctan2. real_cases.
    replace ((1 - 0) / (-1 - 0)) with (Ropp 1) by field.
    replace ((-1 - 0) / (-1 - 0)) with 1 by field.
    rewrite atan_opp, atan_1.
    replace ((- (PI / 4) + PI - (PI / 4 - PI)) * 180 / PI) with 270
      by (field; lra).
    apply Rabs_right. lra. }
  unfold calculate_angle. cbn [fst snd x y]. rewrite H. real_cases.
Qed.

(** C8: for landmarks [a], [b], [c] with [a] and [c] different from the
    vertex [b], the angle does not depend on the order of the two arms:
    [calculate_angle a b c = calculate_angle c b a].  (With the polar
    angle 0 at the origin the equation holds for coincident landmarks
    as well; the proof does not use the two hypotheses.) *)
Theorem calculate_angle_symmetric (a b c : landmark) :
  a <> b -> c <> b -> calculate_angle a b c = calculate_angle c b a.
Proof.
  intros _ _. unfold calculate_angle. cbn [fst snd].
  rewrite (abs_degrees_swap (arctan2 (y c - y b) (x c - x b))).
  reflexivity.
Qed.

Lemma calculate_angle_symmetric_witness :
  let a := {| x := 1; y := 0 |} in
  let b := {| x := 0; y := 0 |} in
  let c := {| x := 0; y := 1 |} in
  calculate_angle a b c = calculate_angle c b a.
Proof.
  apply calculate_angle_symmetric.
  - intros H. apply (f_equal x) in H. simpl in H. apply R1_neq_R0, H.
  - intros H. apply (f_equal y) in H. simpl in H. apply R1_neq_R0, H.
Defined.

(** C9: for landmarks [a], [b], [c] with [a] and [c] different from the
    vertex [b], the angle lies in [0, 180].  It is the absolute
    difference of the two polar angles in degrees when that is at most
    180, and 360 minus it otherwise. *)
Theorem calculate_angle_in_range (a b c : landmark) :
  a <> b -> c <> b ->
  let angle :=
    Rabs ((arctan2 (y c - y b) (x c - x b)
           - arctan2 (y a - y b) (x a - x b)) * 180 / PI) in
  0 <= calculate_angle a b c <= 180 /\
  (angle <= 180 -> calculate_angle a b c = angle) /\
  (angle > 180 -> calculate_angle a b c = 360 - angle).
Proof.
  intros _ _ angle. split; [apply calculate_angle_range|].
  unfold calculate_angle. cbn [fst snd]. fold angle.
  destruct (Rgt_dec angle 180) as [Hgt|Hle]; split; intros H;
    try reflexivity; lra.
Qed.

Lemma calculate_angle_in_range_witness :
  let a := {| x := 1; y := 0 |} in
  let b := {| x := 0; y := 0 |} in
  let c := {| x := 0; y := 1 |} in
  0 <= calculate_angle a b c <= 180.
Proof.
  apply calculate_angle_in_range.
  - intros H. apply (f_equal x) in H. simpl in H. apply R1_neq_R0, H.
  - intros H. apply (f_equal y) in H. simpl in H. apply R1_neq_R0, H.
Defined.

End AngleCalculator.

(** * Sessions: cycles, the sample buffer and the feedback box *)

Module RepSession.

Import Dashboard Frames RepCounter.
Local Open Scope string_scope.
Local Open Scope list_scope.
Local Open Scope Q_scope.

(** ** What one call does to the counter and to [in_squat] *)

Lemma step_effect (self : SquatDashboard) (f : frame) :
  rep_count (step self f) =
    (rep_count self + if in_squat self && at_threshold f then 1 else 0)%Z /\
  in_squat (step self f) =
    (in_squat self && negb (at_threshold f))
    || (negb (in_squat self) && below_threshold f).
Proof.
  unfold step, update_rep_count, at_threshold, below_threshold, valid.
  destruct f as [k t]. cbn [fst snd].
  destruct (in_squat self) eqn:Hs;
    destruct (Qltb_spec 0 k); cbn [andb orb negb];
    destruct (Qltb_spec k squat_threshold);
    destruct (Qleb_spec squat_threshold k);
    cbn [andb orb negb]; try lra;
    try (destruct (k <? deepest_knee_angle self));
    cbn; rewrite ?Hs; split; try reflexivity; lia.
Qed.

Lemma count_frames_cons (test : frame -> bool) (f : frame) (fs : list frame) :
  count_frames test (f :: fs) =
  ((if test f then 1 else 0) + count_frames test fs)%Z.
Proof.
  unfold count_frames. cbn [filter]. destruct (test f); cbn [List.length]; lia.
Qed.

Lemma below_not_at (f : frame) :
  below_threshold f = true -> at_threshold f = false.
Proof.
  unfold below_threshold, at_threshold. destruct (valid f); [|reflexivity].
  cbn [andb]. intros H.
  destruct (Qltb_spec (fst f) squat_threshold); [|discriminate].
  apply Qleb_false. assumption.
Qed.

(** ** Frames that do not close a rep *)

Lemma run_without_exit (fs : list frame) (self : SquatDashboard) :
  Forall (fun f => at_threshold f = false) fs ->
  rep_count (run self fs) = rep_count self /\
  in_squat (run self fs) = in_squat self || existsb below_threshold fs.
Proof.
  revert self. induction fs as [|f fs IH]; intros self Hfs.
  - cbn. rewrite orb_false_r. split; reflexivity.
  - inversion Hfs as [|? ? Hf Hfs']; subst.
    rewrite run_cons. destruct (IH (step self f) Hfs') as [IHc IHs].
    destruct (step_effect self f) as [Hc Hs].
    rewrite Hf in Hc, Hs. rewrite andb_false_r in Hc.
    rewrite IHc, IHs, Hc, Hs. cbn [negb existsb]. rewrite andb_true_r.
    split; [lia|].
    destruct (in_squat self), (below_threshold f); reflexivity.
Qed.

Lemma cycle_counts_once (self : SquatDashboard) (down : list frame)
    (up : frame) :
  in_squat self = false ->
  Forall (fun f => at_threshold f = false) down ->
  existsb below_threshold down = true ->
  at_threshold up = true ->
  rep_count (run self (down ++ [up])) = (rep_count self + 1)%Z /\
  in_squat (run self (down ++ [up])) = false.
Proof.
  intros Hs Hdown Hdip Hup. rewrite run_snoc.
  destruct (run_without_exit down self Hdown) as [Hc Hin].
  rewrite Hs, Hdip in Hin. cbn in Hin.
  destruct (step_effect (run self down) up) as [Hc' Hin'].
  rewrite Hin, Hup in Hc', Hin'. cbn in Hc', Hin'.
  rewrite Hc', Hin', Hc. split; reflexivity.
Qed.

(** X1: every completed squat counts once.  From a state outside a
    squat, run any number of cycles, each made of frames that are
    invalid or below the threshold, at least one of them valid and below
    it, followed by one valid frame at or above the threshold: the
    counter grows by exactly the number of cycles and the dashboard ends
    outside a squat. *)
Theorem cycles_count_exactly (self : SquatDashboard)
    (cycles : list (list frame * frame)) :
  in_squat self = false ->
  Forall (fun c =>
            Forall (fun f => at_threshold f = false) (fst c) /\
            existsb below_threshold (fst c) = true /\
            at_threshold (snd c) = true) cycles ->
  let self' := run self (flat_map (fun c => fst c ++ [snd c]) cycles) in
  rep_count self' = (rep_count self + Z.of_nat (List.length cycles))%Z /\
  in_squat self' = false.
Proof.
  intros Hs Hcycles. revert self Hs.
  induction Hcycles as [|c cycles (Hdown & Hdip & Hup) _ IH]; intros self Hs.
  - cbn. split; [lia | exact Hs].
  - cbn [flat_map]. cbv zeta. rewrite run_app.
    destruct (cycle_counts_once self (fst c) (snd c) Hs Hdown Hdip Hup)
      as [Hc Hin].
    destruct (IH _ Hin) as [IHc IHin]. cbv zeta in IHc, IHin.
    rewrite IHc, IHin, Hc. split; [|reflexivity].
    cbn [List.length]. lia.
Qed.

Lemma cycles_count_exactly_witness :
  let cycles :=
    [([(120, 40); (0, 0); (95, 50)], (170, 20)); ([(139, 35)], (140, 35))] in
  let self' := run init (flat_map (fun c => fst c ++ [snd c]) cycles) in
  rep_count self' = (rep_count init + Z.of_nat (List.length cycles))%Z /\
  in_squat self' = false.
Proof.
  apply (cycles_count_exactly init
    [([(120, 40); (0, 0); (95, 50)], (170, 20)); ([(139, 35)], (140, 35))]).
  - reflexivity.
  - repeat constructor.
Defined.

(** X2: a rep needs a dip and a return.  Along every sequence of update
    calls from the initial state, the counter is at most the number of
    valid frames at or above the threshold, and the counter plus the rep
    that is open, if one is, is at most the number of valid frames below
    the threshold. *)
Theorem reps_bounded_by_crossings (fs : list frame) :
  let self := run init fs in
  (rep_count self <= count_frames at_threshold fs)%Z /\
  (rep_count self + (if in_squat self then 1 else 0)
   <= count_frames below_threshold fs)%Z.
Proof.
  cbv zeta.
  assert (H : forall self,
    (rep_count (run self fs)
     <= rep_count self + count_frames at_threshold fs)%Z /\
    (rep_count (run self fs) + (if in_squat (run self fs) then 1 else 0)
     <= rep_count self + (if in_squat self then 1 else 0)
        + count_frames below_threshold fs)%Z).
  { induction fs as [|f fs IH]; intros self.
    - cbn. unfold count_frames. cbn. lia.
    - rewrite run_cons, !count_frames_cons.
      destruct (IH (step self f)) as [IH1 IH2].
      destruct (step_effect self f) as [Hc Hs].
      rewrite Hc in IH1, IH2. rewrite Hs in IH2.
      pose proof (below_not_at f) as Hba.
      destruct (in_squat self), (at_threshold f), (below_threshold f);
        cbn in IH1, IH2; try (specialize (Hba eq_refl); discriminate);
        split; lia. }
  destruct (H init) as [H1 H2]. cbn in H1, H2. split; lia.
Qed.

(** ** The feedback text and its timer *)

Lemma feedback_line_nonempty (knee torso : Q) :
  (knee_feedback_line knee ++ " | " ++ torso_feedback_line torso)%string
  <> "".
Proof.
  unfold knee_feedback_line.
  destruct (170 <=? knee); [discriminate|].
  destruct ((135 <? knee) && (knee <? 170)); [discriminate|].
  destruct ((110 <=? knee) && (knee <=? 135)); [discriminate|].
  destruct ((90 <=? knee) && (knee <? 110)); [discriminate|].
  destruct ((70 <=? knee) && (knee <? 90)); discriminate.
Qed.

Lemma update_feedback_effect (self : SquatDashboard) (knee torso : Q) :
  let self' := update_rep_count self knee torso in
  (rep_count self' = rep_count self /\
   last_rep_feedback self' = last_rep_feedback self /\
   feedback_timer self' = feedback_timer self)
  \/
  (in_squat self = true /\ at_threshold (knee, torso) = true /\
   rep_count self' = (rep_count self + 1)%Z /\
   in_squat self' = false /\
   feedback_timer self' = 180%Z /\
   last_rep_feedback self' =
     (knee_feedback_line (deepest_knee_angle self') ++ " | " ++
      torso_feedback_line (deepest_torso_angle self'))%string).
Proof.
  cbv zeta. unfold at_threshold, valid. cbn [fst snd].
  destruct (Qltb_spec 0 knee) as [Hv|Hv].
  2:{ left. rewrite update_invalid by lra. auto. }
  destruct (in_squat self) eqn:Hs.
  - destruct (Qleb_spec squat_threshold knee) as [Hk|Hk].
    + right. destruct (update_exit self knee torso Hs Hv Hk)
        as (H1 & H2 & H3 & H4 & _). cbv zeta in H1, H2, H3, H4.
      repeat split; assumption.
    + left. assert (Hk' : knee < squat_threshold) by lra.
      unfold update_rep_count.
      rewrite (Qltb_true _ _ Hv), Hs, andb_false_r, (Qleb_false _ _ Hk').
      destruct (knee <? deepest_knee_angle self); auto.
  - left. unfold update_rep_count.
    rewrite (Qltb_true _ _ Hv), Hs, andb_true_r.
    destruct (knee <? squat_threshold); auto.
Qed.

(** X3: the feedback text and its timer change only when a rep is
    completed.  An update call either leaves [rep_count],
    [last_rep_feedback] and [feedback_timer] as they were, or it is the
    call that closes an open rep with a valid knee angle at or above the
    threshold: then the counter grows by 1, the timer is set to 180 and
    the text is the feedback of the deepest angles. *)
Theorem feedback_changes_only_on_completion
    (self : SquatDashboard) (knee torso : Q) :
  let self' := update_rep_count self knee torso in
  (rep_count self' = rep_count self /\
   last_rep_feedback self' = last_rep_feedback self /\
   feedback_timer self' = feedback_timer self)
  \/
  (in_squat self = true /\ at_threshold (knee, torso) = true /\
   rep_count self' = (rep_count self + 1)%Z /\
   in_squat self' = false /\
   feedback_timer self' = 180%Z /\
   last_rep_feedback self' =
     (knee_feedback_line (deepest_knee_angle self') ++ " | " ++
      torso_feedback_line (deepest_torso_angle self'))%string).
Proof. exact (update_feedback_effect self knee torso). Qed.

(** ** The sample buffer of the open rep *)

Lemma step_metrics (self : SquatDashboard) (f : frame) :
  current_rep_metrics (step self f) =
  if in_squat self then
    current_rep_metrics self ++ map metrics_of (filter valid [f])
  else if below_threshold f then []
  else current_rep_metrics self.
Proof.
  unfold step, update_rep_count, below_threshold, valid, metrics_of.
  destruct f as [k t]. cbn [fst snd filter].
  destruct (in_squat self); destruct (0 <? k); cbn [andb negb map];
    rewrite ?app_nil_r, ?andb_false_r, ?andb_true_r; try reflexivity.
  - destruct (k <? deepest_knee_angle self), (squat_threshold <=? k);
      reflexivity.
  - destruct (k <? squat_threshold); reflexivity.
Qed.

Lemma open_rep_split (self : SquatDashboard) (fs : list frame) :
  in_squat self = false ->
  in_squat (run self fs) = true ->
  exists (before : list frame) (f0 : frame) (since : list frame),
    fs = before ++ f0 :: since /\
    in_squat (run self before) = false /\
    Forall (fun self' => in_squat self' = true)
      (states (run self before) (f0 :: since)).
Proof.
  intros Hs. induction fs as [|f fs IH] using rev_ind; intros Hend.
  - cbn in Hend. congruence.
  - rewrite run_snoc in Hend.
    destruct (in_squat (run self fs)) eqn:Hfs.
    + destruct (IH eq_refl) as (before & f0 & since & Hsplit & Hb & Hopen).
      exists before, f0, (since ++ [f]). repeat split.
      * rewrite Hsplit, <- app_assoc. reflexivity.
      * exact Hb.
      * change (f0 :: since ++ [f]) with ((f0 :: since) ++ [f]).
        rewrite states_app, <- run_app, <- Hsplit.
        apply Forall_app. split; [exact Hopen|].
        cbn. constructor; [exact Hend | constructor].
    + exists fs, f, []. repeat split.
      * exact Hfs.
      * cbn. constructor; [exact Hend | constructor].
Qed.

Lemma metrics_while_open (since : list frame) (self : SquatDashboard) :
  in_squat self = true ->
  Forall (fun self' => in_squat self' = true) (states self since) ->
  current_rep_metrics (run self since) =
  current_rep_metrics self ++ map metrics_of (filter valid since).
Proof.
  revert self. induction since as [|f since IH]; intros self Hs Hopen.
  - cbn. rewrite app_nil_r. reflexivity.
  - cbn [states] in Hopen. inversion Hopen as [|? ? Hf Hrest]; subst.
    rewrite run_cons, (IH _ Hf Hrest), step_metrics, Hs, <- app_assoc.
    f_equal. rewrite <- map_app. f_equal.
    cbn [filter]. destruct (valid f); reflexivity.
Qed.

(** X4: the sample buffer of an open rep.  When a sequence of update
    calls from a state outside a squat ends inside one, split it at the
    call [f0] that opened the current rep: [current_rep_metrics] then
    holds, in order, the valid frames that came after [f0].  The opening
    frame itself is not stored. *)
Theorem buffer_holds_frames_since_open
    (self : SquatDashboard) (fs : list frame) :
  in_squat self = false ->
  in_squat (run self fs) = true ->
  exists (before : list frame) (f0 : frame) (since : list frame),
    fs = before ++ f0 :: since /\
    in_squat (run self before) = false /\
    Forall (fun self' => in_squat self' = true)
      (states (run self before) (f0 :: since)) /\
    current_rep_metrics (run self fs) = map metrics_of (filter valid since).
Proof.
  intros Hs Hend.
  destruct (open_rep_split self fs Hs Hend)
    as (before & f0 & since & Hsplit & Hb & Hopen).
  exists before, f0, since. repeat split; try assumption.
  cbn [states] in Hopen. inversion Hopen as [|? ? Hf0 Hrest]; subst.
  rewrite run_app, run_cons, (metrics_while_open _ _ Hf0 Hrest).
  rewrite step_metrics, Hb.
  destruct (step_effect (run self before) f0) as [_ Hin].
  rewrite Hf0, Hb in Hin. cbn in Hin. rewrite <- Hin. reflexivity.
Qed.

Lemma buffer_holds_frames_since_open_witness :
  let fs := [(180, 35); (120, 40); (0, 0); (100, 50); (130, 30)] in
  exists (before : list frame) (f0 : frame) (since : list frame),
    fs = before ++ f0 :: since /\
    in_squat (run init before) = false /\
    Forall (fun self' => in_squat self' = true)
      (states (run init before) (f0 :: since)) /\
    current_rep_metrics (run init fs) = map metrics_of (filter valid since).
Proof.
  apply (buffer_holds_frames_since_open init
           [(180, 35); (120, 40); (0, 0); (100, 50); (130, 30)]).
  - reflexivity.
  - reflexivity.
Defined.

(** The deepest frame of a rep can be missing from its buffer: here it
    is the opening frame. *)
Example deepest_frame_not_buffered :
  let self := run init [(100, 50); (120, 40)] in
  deepest_knee_angle self = 100 /\
  current_rep_metrics self = [metrics_of (120, 40)].
Proof. split; reflexivity. Qed.

(** ** Invariants of the reachable states *)

Lemma reachable_run (self : SquatDashboard) (fs : list frame) :
  reachable self -> reachable (run self fs).
Proof.
  revert self. induction fs as [|f fs IH]; intros self H.
  - exact H.
  - rewrite run_cons. apply IH. apply reachable_update. exact H.
Qed.

Lemma draw_metrics_timer (self : SquatDashboard) :
  draw_metrics self =
  set_feedback_timer (Z.max 0 (feedback_timer self - 1)) self \/
  (feedback_timer self < 0)%Z /\ draw_metrics self = self.
Proof.
  unfold draw_metrics.
  destruct (Z.ltb_spec 0 (feedback_timer self)) as [H|H].
  - left. f_equal. lia.
  - destruct (Z.eq_dec (feedback_timer self) 0) as [H0|H0].
    + left. rewrite H0. destruct self; cbn in *. subst. reflexivity.
    + right. split; [lia | reflexivity].
Qed.

Lemma reachable_timer_core (self : SquatDashboard) :
  reachable self ->
  (0 <= rep_count self)%Z /\
  (0 <= feedback_timer self <= 180)%Z /\
  (rep_count self = 0%Z ->
   last_rep_feedback self = "" /\ feedback_timer self = 0%Z) /\
  ((0 < rep_count self)%Z -> last_rep_feedback self <> "").
Proof.
  induction 1 as [|self knee torso _ IH|self _ IH].
  - cbn. repeat split; lia.
  - destruct IH as (Hc & Ht & Hzero & Hpos).
    destruct (update_feedback_effect self knee torso)
      as [(E1 & E2 & E3) | (_ & _ & E1 & _ & E3 & E2)];
      cbv zeta in E1, E2, E3; rewrite E1, E2, E3.
    + split; [exact Hc|]. split; [exact Ht|]. split; assumption.
    + split; [lia|]. split; [lia|]. split; [intros H0; lia|].
      intros _. apply feedback_line_nonempty.
  - destruct IH as (Hc & Ht & Hzero & Hpos).
    destruct (draw_metrics_timer self) as [E | [Hneg _]]; [|lia].
    rewrite E. cbn.
    split; [exact Hc|]. split; [lia|]. split; [|exact Hpos].
    intros H0. destruct (Hzero H0) as [Hl Ht0].
    split; [exact Hl | rewrite Ht0; reflexivity].
Qed.

(** X5: the feedback timer and text of the reachable states.  In every
    state reached from [__init__] by calls of [update_rep_count] and
    [draw_metrics], the counter is not negative and the timer lies
    between 0 and 180; before the first rep the text is empty and the
    timer is 0, afterwards the text is never empty.  So the test that
    guards the feedback box holds exactly when the timer is positive:
    its second part, on the text, never decides. *)
Theorem reachable_feedback_timer (self : SquatDashboard) :
  reachable self ->
  (0 <= rep_count self)%Z /\
  (0 <= feedback_timer self <= 180)%Z /\
  (rep_count self = 0%Z ->
   last_rep_feedback self = "" /\ feedback_timer self = 0%Z) /\
  ((0 < rep_count self)%Z -> last_rep_feedback self <> "") /\
  feedback_shown self = (0 <? feedback_timer self)%Z.
Proof.
  intros H. destruct (reachable_timer_core self H) as (Hc & Ht & Hzero & Hpos).
  repeat split; try lia; try (apply Hzero; assumption); try exact Hpos.
  unfold feedback_shown.
  destruct (Z.eq_dec (rep_count self) 0) as [H0|H0].
  - destruct (Hzero H0) as [_ Ht0]. rewrite Ht0. reflexivity.
  - assert (Hne : last_rep_feedback self <> "") by (apply Hpos; lia).
    apply String.eqb_neq in Hne. rewrite Hne, andb_true_r. reflexivity.
Qed.

Lemma reachable_feedback_timer_witness :
  let self := draw_metrics (run init [(100, 35); (180, 35)]) in
  (0 <= rep_count self)%Z /\
  (0 <= feedback_timer self <= 180)%Z /\
  (rep_count self = 0%Z ->
   last_rep_feedback self = "" /\ feedback_timer self = 0%Z) /\
  ((0 < rep_count self)%Z -> last_rep_feedback self <> "") /\
  feedback_shown self = (0 <? feedback_timer self)%Z.
Proof.
  apply (reachable_feedback_timer
           (draw_metrics (run init [(100, 35); (180, 35)]))).
  apply reachable_draw, reachable_run, reachable_init.
Defined.

Lemma update_leaves_squat (self : SquatDashboard) (knee torso : Q) :
  in_squat (update_rep_count self knee torso) = false ->
  (in_squat self = false /\ update_rep_count self knee torso = self) \/
  (in_squat self = true /\ 0 < knee /\ squat_threshold <= knee).
Proof.
  unfold update_rep_count.
  destruct (Qltb_spec 0 knee) as [Hv|Hv]; [|intros H; left; auto].
  destruct (in_squat self) eqn:Hs.
  - rewrite andb_false_r.
    destruct (Qleb_spec squat_threshold knee) as [Hk|Hk].
    + intros _. right. auto.
    + destruct (knee <? deepest_knee_angle self); cbn; congruence.
  - rewrite andb_true_r.
    destruct (knee <? squat_threshold); cbn; [discriminate|].
    intros _. left. auto.
Qed.

Lemma reachable_frozen_core (self : SquatDashboard) :
  reachable self ->
  (0 <= rep_count self)%Z /\
  deepest_below_threshold self /\
  (in_squat self = false -> rep_count self = 0%Z ->
   deepest_knee_angle self = 180 /\ deepest_torso_angle self = 0 /\
   last_rep_feedback self = "") /\
  (in_squat self = false -> (0 < rep_count self)%Z ->
   deepest_knee_angle self < squat_threshold /\
   last_rep_feedback self =
     (knee_feedback_line (deepest_knee_angle self) ++ " | " ++
      torso_feedback_line (deepest_torso_angle self))%string).
Proof.
  induction 1 as [|self knee torso _ IH|self _ IH].
  - cbn. repeat split; try lia; try discriminate.
  - destruct IH as (Hc & Hd & Hzero & Hpos).
    assert (Hc' : (0 <= rep_count (update_rep_count self knee torso))%Z).
    { destruct (rep_count_update self knee torso) as [E|E]; rewrite E; lia. }
    split; [exact Hc'|].
    split; [exact (deepest_below_threshold_step self (knee, torso) Hd)|].
    split.
    + intros Hs' Hr'.
      destruct (update_leaves_squat self knee torso Hs')
        as [[Hs E] | (Hs & Hv & Hk)].
      * rewrite E in *. apply Hzero; assumption.
      * destruct (update_exit self knee torso Hs Hv Hk) as (_ & E & _).
        cbv zeta in E. lia.
    + intros Hs' Hr'.
      destruct (update_leaves_squat self knee torso Hs')
        as [[Hs E] | (Hs & Hv & Hk)].
      * rewrite E in *. apply Hpos; assumption.
      * destruct (update_exit self knee torso Hs Hv Hk)
          as (_ & _ & Efb & _ & Ekeep).
        cbv zeta in Efb, Ekeep. destruct (Ekeep (Hd Hs)) as [Ek Et].
        split; [rewrite Ek; exact (Hd Hs) | exact Efb].
  - destruct IH as (Hc & Hd & Hzero & Hpos).
    destruct (draw_metrics_timer self) as [E | [_ E]]; rewrite E;
      repeat split; try assumption;
      try (intros; apply Hzero; assumption);
      try (intros; apply Hpos; assumption).
Qed.

(** X6: outside a squat the stored deepest angles are frozen with the
    feedback.  In every reachable state with [in_squat] false: before
    the first rep the deepest angles still are the initial 180 and 0 and
    there is no feedback; after a rep the deepest knee angle is below
    the threshold and the feedback text is the one of the stored deepest
    angles, the pair [draw_metrics] prints under it. *)
Theorem standing_feedback_matches_deepest (self : SquatDashboard) :
  reachable self -> in_squat self = false ->
  (rep_count self = 0%Z ->
   deepest_knee_angle self = 180 /\ deepest_torso_angle self = 0 /\
   last_rep_feedback self = "") /\
  ((0 < rep_count self)%Z ->
   deepest_knee_angle self < 140 /\
   last_rep_feedback self =
     (knee_feedback_line (deepest_knee_angle self) ++ " | " ++
      torso_feedback_line (deepest_torso_angle self))%string).
Proof.
  intros H Hs. destruct (reachable_frozen_core self H) as (_ & _ & Hzero & Hpos).
  split; intros Hr; [apply Hzero | apply Hpos]; assumption.
Qed.

Lemma standing_feedback_matches_deepest_witness :
  let self := run init [(100, 35); (180, 35); (0, 0); (150, 70)] in
  (rep_count self = 0%Z ->
   deepest_knee_angle self = 180 /\ deepest_torso_angle self = 0 /\
   last_rep_feedback self = "") /\
  ((0 < rep_count self)%Z ->
   deepest_knee_angle self < 140 /\
   last_rep_feedback self =
     (knee_feedback_line (deepest_knee_angle self) ++ " | " ++
      torso_feedback_line (deepest_torso_angle self))%string).
Proof.
  apply (standing_feedback_matches_deepest
           (run init [(100, 35); (180, 35); (0, 0); (150, 70)])).
  - apply reachable_run, reachable_init.
  - reflexivity.
Defined.

(** Inside the next squat this is lost: the text is the one of the last
    rep while the stored deepest angles are those of the open rep. *)
Example open_rep_feedback_is_stale :
  let self := run init [(100, 35); (180, 35); (120, 70)] in
  in_squat self = true /\
  last_rep_feedback self = "Good depth | Good torso position" /\
  (knee_feedback_line (deepest_knee_angle self) ++ " | " ++
   torso_feedback_line (deepest_torso_angle self))%string =
    "Perfect depth! | Too much forward lean".
Proof. repeat split; reflexivity. Qed.

(** ** Frames of a video *)

Section Video.

Variable calculate_angle : landmark -> landmark -> landmark -> Q.

Local Abbreviation process_frame := (Frames.process_frame calculate_angle).
Local Abbreviation process_frames :=
  (Frames.process_frames calculate_angle).
Local Abbreviation measured := (Frames.measured calculate_angle).

Lemma process_frame_state (self : SquatDashboard)
    (results : option pose_landmarks) :
  fst (process_frame self results) =
  draw_metrics (run self (measured [results])).
Proof. destruct results; reflexivity. Qed.

Lemma process_frames_cons (self : SquatDashboard)
    (results : option pose_landmarks) (video : list (option pose_landmarks)) :
  process_frames self (results :: video) =
  process_frames (fst (process_frame self results)) video.
Proof. reflexivity. Qed.

Lemma measured_cons (results : option pose_landmarks)
    (video : list (option pose_landmarks)) :
  measured (results :: video) = measured [results] ++ measured video.
Proof. destruct results; reflexivity. Qed.

Lemma set_timer_update (t : Z) (self self' : SquatDashboard)
    (knee torso : Q) :
  set_feedback_timer t self = set_feedback_timer t self' ->
  set_feedback_timer t (update_rep_count self knee torso) =
  set_feedback_timer t (update_rep_count self' knee torso).
Proof.
  destruct self, self'. unfold set_feedback_timer. cbn. intros H.
  injection H as -> -> -> -> -> ->.
  unfold update_rep_count, generate_rep_feedback. cbn.
  destruct (0 <? knee); [|reflexivity].
  destruct ((knee <? squat_threshold) && negb in_squat1); [reflexivity|].
  destruct in_squat1; [|reflexivity].
  destruct (knee <? deepest_knee_angle1), (squat_threshold <=? knee);
    reflexivity.
Qed.

Lemma set_timer_run (t : Z) (fs : list frame) (self self' : SquatDashboard) :
  set_feedback_timer t self = set_feedback_timer t self' ->
  set_feedback_timer t (run self fs) = set_feedback_timer t (run self' fs).
Proof.
  revert self self'. induction fs as [|f fs IH]; intros self self' H.
  - exact H.
  - rewrite !run_cons. apply IH. apply set_timer_update. exact H.
Qed.

Lemma set_timer_draw (t : Z) (self : SquatDashboard) :
  set_feedback_timer t (draw_metrics self) = set_feedback_timer t self.
Proof.
  unfold draw_metrics. destruct (0 <? feedback_timer self)%Z; reflexivity.
Qed.

Lemma process_frames_counting (t : Z) (video : list (option pose_landmarks))
    (self : SquatDashboard) :
  set_feedback_timer t (process_frames self video) =
  set_feedback_timer t (run self (measured video)).
Proof.
  revert self. induction video as [|results video IH]; intros self.
  - reflexivity.
  - rewrite process_frames_cons, IH, measured_cons, run_app.
    apply set_timer_run. rewrite process_frame_state. apply set_timer_draw.
Qed.

(** X7: drawing does not disturb the counting.  After the frames of a
    video, processed by [process_frame] with its call of [draw_metrics]
    on every frame, the counter, [in_squat], the sample buffer, the
    deepest angles and the feedback text are those reached by the update
    calls alone, one for each frame with a pose; frames without a pose
    contribute nothing. *)
Theorem process_frames_counts_like_updates
    (self : SquatDashboard) (video : list (option pose_landmarks)) :
  let drawn := process_frames self video in
  let counted := run self (measured video) in
  rep_count drawn = rep_count counted /\
  in_squat drawn = in_squat counted /\
  current_rep_metrics drawn = current_rep_metrics counted /\
  deepest_knee_angle drawn = deepest_knee_angle counted /\
  deepest_torso_angle drawn = deepest_torso_angle counted /\
  last_rep_feedback drawn = last_rep_feedback counted.
Proof.
  cbv zeta. pose proof (process_frames_counting 0 video self) as H.
  repeat split.
  - exact (f_equal rep_count H).
  - exact (f_equal in_squat H).
  - exact (f_equal current_rep_metrics H).
  - exact (f_equal deepest_knee_angle H).
  - exact (f_equal deepest_torso_angle H).
  - exact (f_equal last_rep_feedback H).
Qed.

Lemma process_frame_rep_count (self : SquatDashboard)
    (results : option pose_landmarks) :
  (rep_count self <= rep_count (fst (process_frame self results)))%Z.
Proof.
  pose proof (process_frames_counting 0 [results] self) as H.
  apply (f_equal rep_count) in H. cbn [rep_count set_feedback_timer] in H.
  change (process_frames self [results])
    with (fst (process_frame self results)) in H.
  rewrite H. apply rep_count_run.
Qed.

Lemma process_frames_rep_count (video : list (option pose_landmarks))
    (self : SquatDashboard) :
  (rep_count self <= rep_count (process_frames self video))%Z.
Proof.
  revert self. induction video as [|results video IH]; intros self.
  - apply Z.le_refl.
  - rewrite process_frames_cons.
    apply Z.le_trans with (rep_count (fst (process_frame self results)));
      [apply process_frame_rep_count | apply IH].
Qed.

Lemma process_frame_timer (self : SquatDashboard)
    (results : option pose_landmarks) :
  let self' := fst (process_frame self results) in
  (rep_count self' = rep_count self /\
   last_rep_feedback self' = last_rep_feedback self /\
   ((0 <= feedback_timer self)%Z ->
    feedback_timer self' = Z.max 0 (feedback_timer self - 1)))
  \/
  (rep_count self' = (rep_count self + 1)%Z /\
   last_rep_feedback self' <> "" /\
   feedback_timer self' = 179%Z).
Proof.
  cbv zeta. rewrite process_frame_state.
  set (mid := run self (measured [results])).
  assert (Hmid :
    (rep_count mid = rep_count self /\
     last_rep_feedback mid = last_rep_feedback self /\
     feedback_timer mid = feedback_timer self)
    \/
    (rep_count mid = (rep_count self + 1)%Z /\
     last_rep_feedback mid <> "" /\ feedback_timer mid = 180%Z)).
  { subst mid. destruct results as [landmarks|]; [|left; auto].
    cbn [Frames.measured run fold_left]. unfold step. cbn [fst snd].
    match goal with
    | |- context [update_rep_count self ?k ?t] =>
        destruct (update_feedback_effect self k t)
          as [(E1 & E2 & E3) | (_ & _ & E1 & _ & E3 & E2)];
        cbv zeta in E1, E2, E3
    end.
    - left. auto.
    - right. repeat split; try assumption.
      rewrite E2. apply feedback_line_nonempty. }
  clearbody mid.
  destruct (draw_metrics_timer mid) as [E | [Hneg E]]; rewrite E.
  - cbn. destruct Hmid as [(E1 & E2 & E3) | (E1 & E2 & E3)]; rewrite E3.
    + left. auto.
    + right. repeat split; try assumption.
  - destruct Hmid as [(E1 & E2 & E3) | (_ & _ & E3)]; [|lia].
    left. repeat split; try assumption. intros Ht. lia.
Qed.

Lemma timer_without_completion (video : list (option pose_landmarks))
    (self : SquatDashboard) :
  (0 <= feedback_timer self)%Z ->
  rep_count (process_frames self video) = rep_count self ->
  last_rep_feedback (process_frames self video) = last_rep_feedback self /\
  feedback_timer (process_frames self video) =
    Z.max 0 (feedback_timer self - Z.of_nat (List.length video)).
Proof.
  revert self. induction video as [|results video IH]; intros self Ht Hc.
  - cbn. split; [reflexivity | lia].
  - rewrite process_frames_cons in *.
    pose proof (process_frame_rep_count self results) as Hle1.
    pose proof (process_frames_rep_count video
                  (fst (process_frame self results))) as Hle2.
    destruct (process_frame_timer self results)
      as [(E1 & E2 & E3) | (E1 & _ & _)]; [|lia].
    specialize (E3 Ht).
    destruct (IH (fst (process_frame self results))) as [IH1 IH2].
    + rewrite E3. lia.
    + rewrite E1. exact Hc.
    + rewrite IH1, IH2, E2, E3. split; [reflexivity|].
      cbn [List.length]. lia.
Qed.

(** X8: how long the feedback box is drawn.  When a frame completes a
    rep and no later frame of the video completes another, the box is
    drawn on the completing frame and on the 178 frames after it, 179
    frames in all, and on no later frame: [update_rep_count] sets the
    timer to 180 and [draw_metrics] takes 1 off before it tests it. *)
Theorem feedback_box_lasts_179_frames (self : SquatDashboard)
    (results : option pose_landmarks) (video : list (option pose_landmarks)) :
  let completed := fst (process_frame self results) in
  rep_count completed = (rep_count self + 1)%Z ->
  rep_count (process_frames completed video) = rep_count completed ->
  feedback_timer (process_frames completed video) =
    Z.max 0 (179 - Z.of_nat (List.length video)) /\
  feedback_shown (process_frames completed video) =
    (List.length video <? 179)%nat.
Proof.
  cbv zeta. intros Hdone Hquiet.
  destruct (process_frame_timer self results)
    as [(E1 & _ & _) | (_ & Hne & E3)]; [lia|].
  assert (Ht' : (0 <= feedback_timer (fst (process_frame self results)))%Z)
    by (rewrite E3; lia).
  destruct (timer_without_completion video _ Ht' Hquiet) as [El Et].
  rewrite E3 in Et. split; [exact Et|].
  unfold feedback_shown. rewrite El, Et.
  apply String.eqb_neq in Hne. rewrite Hne, andb_true_r.
  destruct (Nat.ltb_spec (List.length video) 179);
    destruct (Z.ltb_spec 0 (Z.max 0 (179 - Z.of_nat (List.length video))));
    try reflexivity; lia.
Qed.

End Video.

Lemma feedback_box_lasts_179_frames_witness :
  let calculate_angle := fun a b c : landmark => x a in
  let standing :=
    Some {| RIGHT_SHOULDER := {| x := 35; y := 10 |};
            RIGHT_HIP := {| x := 180; y := 50 |};
            RIGHT_KNEE := {| x := 0; y := 70 |};
            RIGHT_ANKLE := {| x := 0; y := 90 |} |} in
  let self := run init [(100, 35)] in
  let completed := fst (Frames.process_frame calculate_angle self standing) in
  feedback_timer
    (Frames.process_frames calculate_angle completed [None; standing]) =
    Z.max 0 (179 - 2) /\
  feedback_shown
    (Frames.process_frames calculate_angle completed [None; standing]) = true.
Proof.
  cbv zeta.
  apply (feedback_box_lasts_179_frames (fun a b c : landmark => x a)
           (run init [(100, 35)])
           (Some {| RIGHT_SHOULDER := {| x := 35; y := 10 |};
                    RIGHT_HIP := {| x := 180; y := 50 |};
                    RIGHT_KNEE := {| x := 0; y := 70 |};
                    RIGHT_ANKLE := {| x := 0; y := 90 |} |})
           [None;
            Some {| RIGHT_SHOULDER := {| x := 35; y := 10 |};
                    RIGHT_HIP := {| x := 180; y := 50 |};
                    RIGHT_KNEE := {| x := 0; y := 70 |};
                    RIGHT_ANKLE := {| x := 0; y := 90 |} |}]).
  - reflexivity.
  - reflexivity.
Defined.

End RepSession.

(** * The live labels *)

Module Labels.

Import Dashboard Classifier RepCounter.
Local Open Scope string_scope.
Local Open Scope list_scope.
Local Open Scope Q_scope.

Lemma Qltb_true_iff (x y : Q) : (x <? y) = true <-> x < y.
Proof. destruct (Qltb_spec x y); split; intros; try lra; congruence. Qed.

Lemma Qltb_false_iff (x y : Q) : (x <? y) = false <-> y <= x.
Proof. destruct (Qltb_spec x y); split; intros; try lra; congruence. Qed.

Lemma Qleb_true_iff (x y : Q) : (x <=? y) = true <-> x <= y.
Proof. destruct (Qleb_spec x y); split; intros; try lra; congruence. Qed.

Lemma Qleb_false_iff (x y : Q) : (x <=? y) = false <-> y < x.
Proof. destruct (Qleb_spec x y); split; intros; try lra; congruence. Qed.

Lemma Qeqb_true_iff (x y : Q) : (x =? y) = true <-> x == y.
Proof. apply Qeq_bool_iff. Qed.

Lemma Qeqb_false_iff (x y : Q) : (x =? y) = false <-> ~ x == y.
Proof.
  rewrite <- Qeqb_true_iff. destruct (x =? y); split; intros; congruence.
Qed.

(** Case analysis along a chain of [if]s: the outermost test first, its
    outcome kept as a fact about the angle. *)
Ltac next_test :=
  match goal with
  | |- context [if ?c then _ else _] =>
      lazymatch c with
      | context [if _ then _ else _] => fail
      | _ => destruct c eqn:?
      end
  end.

Ltac tests_to_facts :=
  repeat match goal with
  | H : (_ && _) = true |- _ => apply andb_true_iff in H; destruct H
  | H : (_ && _) = false |- _ => apply andb_false_iff in H; destruct H
  | H : (_ || _) = true |- _ => apply orb_true_iff in H; destruct H
  | H : (_ || _) = false |- _ => apply orb_false_iff in H; destruct H
  | H : (_ <? _) = true |- _ => apply Qltb_true_iff in H
  | H : (_ <? _) = false |- _ => apply Qltb_false_iff in H
  | H : (_ <=? _) = true |- _ => apply Qleb_true_iff in H
  | H : (_ <=? _) = false |- _ => apply Qleb_false_iff in H
  | H : (_ =? _) = true |- _ => apply Qeqb_true_iff in H
  | H : (_ =? _) = false |- _ => apply Qeqb_false_iff in H
  end.

Ltac by_bands := repeat next_test; tests_to_facts; cbn [fst snd].

Ltac in_table :=
  cbn [In]; repeat (first [left; reflexivity | right]); try lra.

(** X9: the live knee label and the knee line of the rep feedback use
    the same bands.  For every angle the two texts are one of the pairs
    below; only at 0, where the live label is "No data", the feedback
    generator has no such case and answers "Very deep - be careful". *)
Theorem knee_label_matches_feedback_line (knee : Q) :
  In (fst (get_knee_feedback knee), knee_feedback_line knee)
    [("No data", "Very deep - be careful");
     ("Standing position", "Too shallow - go deeper");
     ("Shallow squat", "Shallow squat - try for more depth");
     ("Perfect depth!", "Perfect depth!");
     ("Good depth", "Good depth");
     ("Parallel squat", "Parallel depth achieved");
     ("Very deep squat", "Very deep - be careful")] /\
  (fst (get_knee_feedback knee) = "No data" <-> knee == 0).
Proof.
  unfold get_knee_feedback, knee_feedback_line. split.
  - by_bands; in_table.
  - by_bands; split; intros Hx; try discriminate Hx; try reflexivity; lra.
Qed.

(** X10: the live torso label against the torso line of the rep
    feedback.  The feedback generator has one band below 30 where the
    live label has three ("Too upright" from 20, "Very upright" below
    20 and "No data" at 0); elsewhere the bands are the same. *)
Theorem torso_label_matches_feedback_line (torso : Q) :
  In (fst (get_torso_feedback torso), torso_feedback_line torso)
    [("No data", "Torso too upright");
     ("Good torso angle", "Good torso position");
     ("Too upright", "Torso too upright");
     ("Very upright", "Torso too upright");
     ("Slight forward lean", "Slight forward lean");
     ("Too much forward lean", "Too much forward lean")] /\
  (fst (get_torso_feedback torso) = "Very upright" <->
   torso < 20 /\ ~ torso == 0).
Proof.
  unfold get_torso_feedback, torso_feedback_line. split.
  - by_bands; in_table.
  - by_bands; split; intros Hx; try discriminate Hx; try reflexivity;
      lra.
Qed.

(** X11: the depth category is a coarsening of the live knee label:
    the label decides the category as in the table below.  In
    particular the label "Parallel squat" (70 to 90) falls in the
    category "Very Deep", not in "Parallel to Deep". *)
Theorem depth_category_follows_knee_label (knee : Q) :
  In (fst (get_knee_feedback knee), fst (get_depth_feedback knee))
    [("No data", "No data");
     ("Standing position", "Partial/Shallow");
     ("Shallow squat", "Partial/Shallow");
     ("Perfect depth!", "Parallel to Deep");
     ("Good depth", "Parallel to Deep");
     ("Parallel squat", "Very Deep");
     ("Very deep squat", "Very Deep")].
Proof.
  unfold get_knee_feedback, get_depth_feedback. by_bands; in_table.
Qed.

Lemma knee_label_perfect (knee : Q) :
  fst (get_knee_feedback knee) = "Perfect depth!" <-> 110 <= knee <= 135.
Proof.
  unfold get_knee_feedback.
  by_bands; split; intros Hx; try discriminate Hx; try reflexivity; lra.
Qed.

Lemma torso_label_good (torso : Q) :
  fst (get_torso_feedback torso) = "Good torso angle" <-> 30 <= torso <= 45.
Proof.
  unfold get_torso_feedback.
  by_bands; split; intros Hx; try discriminate Hx; try reflexivity; lra.
Qed.

(** X12: the overall assessment in terms of the two live labels.  It is
    "Checking form..." exactly when one of the angles is 0.  Otherwise
    it is "Excellent form!" when the knee label is "Perfect depth!" and
    the torso label is "Good torso angle", "Good form" when exactly one
    of the two holds, and "Focus on form" when neither does. *)
Theorem overall_feedback_from_labels (knee torso : Q) :
  let knee_good := fst (get_knee_feedback knee) = "Perfect depth!" in
  let torso_good := fst (get_torso_feedback torso) = "Good torso angle" in
  (get_overall_feedback knee torso = "Checking form..." <->
   knee == 0 \/ torso == 0) /\
  (~ knee == 0 -> ~ torso == 0 ->
   (get_overall_feedback knee torso = "Excellent form!" <->
    knee_good /\ torso_good) /\
   (get_overall_feedback knee torso = "Good form" <->
    (knee_good /\ ~ torso_good) \/ (~ knee_good /\ torso_good)) /\
   (get_overall_feedback knee torso = "Focus on form" <->
    ~ knee_good /\ ~ torso_good)).
Proof.
  cbv zeta. rewrite knee_label_perfect, torso_label_good.
  unfold get_overall_feedback. split.
  - by_bands; split; intros Hx; try discriminate Hx; try reflexivity;
      try (left; assumption); try (right; assumption);
      destruct Hx; contradiction.
  - intros Hk Ht. by_bands; try contradiction;
      (split; [|split]); split; intros Hx;
      try discriminate Hx; try reflexivity; lra.
Qed.

Lemma overall_feedback_from_labels_witness :
  get_overall_feedback 120 50 = "Good form" <->
  (fst (get_knee_feedback 120) = "Perfect depth!" /\
   ~ fst (get_torso_feedback 50) = "Good torso angle") \/
  (~ fst (get_knee_feedback 120) = "Perfect depth!" /\
   fst (get_torso_feedback 50) = "Good torso angle").
Proof.
  apply (overall_feedback_from_labels 120 50); discriminate.
Defined.

End Labels.

(** * Setting the four points by mouse clicks *)

Module Calibration.

Import Geometry OpenCV.
Local Open Scope string_scope.
Local Open Scope list_scope.
Local Open Scope Z_scope.

(** Case analysis on a list of at most four points. *)
Ltac at_most_four points H :=
  destruct points as [|? [|? [|? [|? [|? ?]]]]];
  cbn [List.length] in H; try lia; clear H.

Lemma mouse_callback_calibrated (points : list point) (event x y : Z) :
  (List.length points <= 4)%nat ->
  mouse_callback (calibrated points) event x y =
  Some (calibrated (clicked_step points (Mouse event x y))).
Proof.
  intros H. at_most_four points H;
    unfold mouse_callback, clicked_step;
    destruct (event =? EVENT_LBUTTONDOWN); reflexivity.
Qed.

Lemma reset_points_calibrated (points : list point) :
  (List.length points <= 4)%nat ->
  reset_points (calibrated points) = calibrated [].
Proof. intros H. at_most_four points H; reflexivity. Qed.

Lemma clicked_step_length (points : list point) (i : input) :
  (List.length points <= 4)%nat ->
  (List.length (clicked_step points i) <= 4)%nat.
Proof.
  intros H. destruct i as [event x y|]; cbn [clicked_step List.length]; [|lia].
  destruct (event =? EVENT_LBUTTONDOWN); cbn [andb]; [|exact H].
  destruct (Nat.ltb_spec (List.length points) 4); [|exact H].
  rewrite length_app. cbn [List.length]. lia.
Qed.

Lemma handle_all_calibrated (inputs : list input) (points : list point) :
  (List.length points <= 4)%nat ->
  handle_all (calibrated points) inputs =
    Some (calibrated (fold_left clicked_step inputs points)) /\
  (List.length (fold_left clicked_step inputs points) <= 4)%nat.
Proof.
  revert points. induction inputs as [|i inputs IH]; intros points H.
  - split; [reflexivity | exact H].
  - cbn [handle_all fold_left].
    assert (Hstep : handle (calibrated points) i =
                    Some (calibrated (clicked_step points i))).
    { destruct i as [event x y|].
      - apply mouse_callback_calibrated, H.
      - cbn [handle clicked_step]. f_equal.
        apply reset_points_calibrated, H. }
    rewrite Hstep. apply IH, clicked_step_length, H.
Qed.

(** X13: the calibration never fails and keeps what was clicked.  After
    any sequence of mouse events and resets from [__init__], no call has
    raised, and the state is the one in which the points clicked since
    the last reset, the first four of them at most, are stored under
    "shoulder", "hip", "knee", "ankle" in this order: [point_index] is
    their number, [setup_complete] holds exactly when there are four,
    and every other or later event has changed nothing. *)
Theorem calibration_tracks_clicks (inputs : list input) :
  handle_all init inputs = Some (calibrated (clicked inputs)) /\
  (List.length (clicked inputs) <= 4)%nat.
Proof.
  apply (handle_all_calibrated inputs []). cbn. lia.
Qed.



Lemma getitem_setitem_same (d : dict) (key : string) (v : option point) :
  getitem (setitem d key v) key = Some v.
Proof.
  induction d as [|[k w] d IH]; cbn [setitem getitem].
  - rewrite String.eqb_refl. reflexivity.
  - destruct (String.eqb_spec k key) as [E|E]; cbn [getitem].
    + rewrite E, String.eqb_refl. reflexivity.
    + apply String.eqb_neq in E. rewrite E. exact IH.
Qed.

Lemma getitem_setitem_other (d : dict) (key key' : string)
    (v : option point) :
  key' <> key -> getitem (setitem d key v) key' = getitem d key'.
Proof.
  intros Hne. induction d as [|[k w] d IH]; cbn [setitem getitem].
  - destruct (String.eqb_spec key key'); [congruence | reflexivity].
  - destruct (String.eqb_spec k key) as [E|E]; cbn [getitem].
    + subst k. destruct (String.eqb_spec key key'); [congruence|].
      reflexivity.
    + rewrite IH. reflexivity.
Qed.

Lemma click_stores_under_current_point (points : list point) (x y : Z) :
  (List.length points < 4)%nat ->
  exists self' : SquatDashboard,
    mouse_callback (calibrated points) EVENT_LBUTTONDOWN x y = Some self' /\
    tracking_points self' =
      setitem (tracking_points (calibrated points))
        (current_point (calibrated points)) (Some (x, y)).
Proof.
  intros H.
  destruct points as [|? [|? [|? [|? ?]]]]; cbn [List.length] in H; try lia;
    eexists; split; reflexivity.
Qed.

(** X15: the instruction names the point the next click sets.  In a
    state reached by mouse events and resets with the setup not yet
    complete, a left click does not raise, stores its position under the
    key [current_point] and leaves the other keys as they were. *)
Theorem click_sets_current_point (inputs : list input)
    (self : SquatDashboard) (x y : Z) :
  handle_all init inputs = Some self ->
  setup_complete self = false ->
  exists self' : SquatDashboard,
    mouse_callback self EVENT_LBUTTONDOWN x y = Some self' /\
    getitem (tracking_points self') (current_point self) = Some (Some (x, y)) /\
    (forall key : string,
       key <> current_point self ->
       getitem (tracking_points self') key =
       getitem (tracking_points self) key).
Proof.
  destruct (handle_all_calibrated inputs []) as [Hrun Hlen]; [cbn; lia|].
  change (calibrated []) with init in Hrun.
  remember (fold_left clicked_step inputs []) as points eqn:Hpoints.
  clear Hpoints. rewrite Hrun. intros Hself. injection Hself as <-.
  intros Hsetup.
  assert (Hfew : (List.length points < 4)%nat).
  { cbn [calibrated setup_complete] in Hsetup.
    apply Nat.leb_gt in Hsetup. exact Hsetup. }
  destruct (click_stores_under_current_point points x y Hfew)
    as (self' & Hcall & Hdict).
  exists self'. split; [exact Hcall|]. rewrite Hdict. split.
  - apply getitem_setitem_same.
  - intros key Hkey. apply getitem_setitem_other. exact Hkey.
Qed.

Lemma click_sets_current_point_witness :
  let self := calibrated [(10, 20)] in
  exists self' : SquatDashboard,
    mouse_callback self EVENT_LBUTTONDOWN 30 40 = Some self' /\
    getitem (tracking_points self') (current_point self)
      = Some (Some (30, 40)) /\
    (forall key : string,
       key <> current_point self ->
       getitem (tracking_points self') key =
       getitem (tracking_points self) key).
Proof.
  apply (click_sets_current_point [Mouse 0 5 5; Mouse 1 10 20]
           (calibrated [(10, 20)]) 30 40).
  - reflexivity.
  - reflexivity.
Defined.


End Calibration.
